(** * routing-controllers: the Session decorator and the Koa driver

    A shallow embedding of [Session] (decorator/Session) and of the
    [KoaDriver] class (driver/koa/KoaDriver): [registerAction] with its
    route guard and authorization middleware, [getParamFromRequest],
    [handleSuccess], [handleError] and [prepareMiddlewares].

    JavaScript values are a small inductive type; objects are association
    lists because [Object.keys] iterates in insertion order.  Middlewares
    are state-passing functions in continuation style over a [World] that
    holds the Koa context and a ghost log of the two dispatch events the
    driver itself performs. *)

From Stdlib Require Import String Ascii ZArith List Bool Lia PeanoNat.
Import ListNotations.
Set Warnings "-register-all".
Open Scope string_scope.
Open Scope list_scope.

(** ** JavaScript values *)

Inductive JsValue : Type :=
| JUndefined
| JNull
| JBool (b : bool)
| JNum (n : Z)
| JStr (s : string)
| JObj (fields : list (string * JsValue))
| JBytes (isBuffer : bool) (bytes : list Z)   (* Uint8Array, or its subclass Buffer *)
| JFunction (name : string).

(** [!!v]: the values that count as true in a condition. *)
Definition truthy (v : JsValue) : bool :=
  match v with
  | JUndefined | JNull => false
  | JBool b => b
  | JNum n => negb (n =? 0)%Z
  | JStr s => negb (s =? "")
  | JObj _ | JBytes _ _ | JFunction _ => true
  end.

(** [v !== undefined] *)
Definition isDefined (v : JsValue) : bool :=
  match v with JUndefined => false | _ => true end.

(** [v instanceof Function] *)
Definition instanceofFunction (v : JsValue) : bool :=
  match v with JFunction _ => true | _ => false end.

(** [v instanceof Object] *)
Definition instanceofObject (v : JsValue) : bool :=
  match v with JObj _ | JBytes _ _ | JFunction _ => true | _ => false end.

(** [v instanceof Uint8Array] *)
Definition instanceofUint8Array (v : JsValue) : bool :=
  match v with JBytes _ _ => true | _ => false end.

(** ** Errors *)

Inductive JsError : Type :=
| AuthorizationCheckerNotDefinedError
| AuthorizationRequiredError
| AccessDeniedError
| NotFoundError
| TypeError
| ConstructedError (ctor : string)     (* [new action.undefinedResultCode(options)] *)
| UserError (payload : JsValue).       (* whatever user code or a library throws *)

Inductive Result (A : Type) : Type :=
| Ok (a : A)
| Throw (e : JsError).
Arguments Ok {A} a.
Arguments Throw {A} e.

(** ** Property access *)

Fixpoint ownProperty (k : string) (fs : list (string * JsValue)) : JsValue :=
  match fs with
  | [] => JUndefined
  | (k', v) :: rest => if k =? k' then v else ownProperty k rest
  end.

Fixpoint hasOwnProperty (k : string) (fs : list (string * JsValue)) : bool :=
  match fs with
  | [] => false
  | (k', _) :: rest => (k =? k') || hasOwnProperty k rest
  end.

(** [v[k]] on a value that is neither [undefined] nor [null]: an object's
    own property when it has one; otherwise what the lookup finds further
    on, which the runtime decides and [inheritedMember] stands for (the
    members of Object.prototype for an object, the length, the characters
    and the members of String.prototype for a string, and so on;
    [undefined] for a name nothing defines). *)
Definition memberOf (inheritedMember : JsValue -> string -> JsValue)
    (v : JsValue) (k : string) : JsValue :=
  match v with
  | JObj fs => if hasOwnProperty k fs then ownProperty k fs else inheritedMember v k
  | _ => inheritedMember v k
  end.

(** [v[k]]: reading a property of [undefined] or [null] raises a
    TypeError. *)
Definition getProp (inheritedMember : JsValue -> string -> JsValue)
    (v : JsValue) (k : string) : Result JsValue :=
  match v with
  | JUndefined | JNull => Throw TypeError
  | _ => Ok (memberOf inheritedMember v k)
  end.

(** The key used by [obj[name]]: a missing name is the key "undefined". *)
Definition propertyKey (name : option string) : string :=
  match name with Some s => s | None => "undefined" end.

Definition lowerAscii (c : ascii) : ascii :=
  let n := nat_of_ascii c in
  if ((65 <=? n) && (n <=? 90))%nat then ascii_of_nat (n + 32) else c.

Fixpoint toLowerCase (s : string) : string :=
  match s with
  | EmptyString => EmptyString
  | String c rest => String (lowerAscii c) (toLowerCase rest)
  end.

(** ** decorator/Session *)

Module SessionDecorator.

(** The [options] argument; a property that is not given reads as
    [undefined]. *)
Record SessionOptions : Type := {
  required : JsValue;
  transform : JsValue;
  validate : JsValue
}.

(** An entry of [getMetadataArgsStorage().params]. *)
Record ParamMetadataArgs : Type := {
  pa_type : string;
  pa_object : string;
  pa_method : string;
  pa_index : nat;
  pa_parse : bool;
  pa_required : JsValue;
  pa_classTransform : JsValue;
  pa_validate : JsValue
}.

Record MetadataArgsStorage : Type := {
  params : list ParamMetadataArgs
}.

(** [Session(options)(object, methodName, index)]: pushes one entry.
    [options] is [None] when the decorator is called without argument. *)
Definition Session (options : option SessionOptions)
    (object methodName : string) (index : nat)
    (storage : MetadataArgsStorage) : MetadataArgsStorage :=
  {| params := params storage ++ [
       {| pa_type := "session";
          pa_object := object;
          pa_method := methodName;
          pa_index := index;
          pa_parse := false;
          pa_required :=
            match options with
            | Some o => if isDefined (required o) then required o else JBool true
            | None => JBool true
            end;
          pa_classTransform :=
            match options with
            | Some o => transform o
            | None => JUndefined
            end;
          pa_validate :=
            match options with
            | Some o => if isDefined (validate o) then validate o else JBool false
            | None => JBool false
            end |} ] |}.

End SessionDecorator.

(** ** The Koa context *)

(** The request headers as Node hands them over: always an object, its
    names in lower case, its values strings. *)
Definition Headers : Type := list (string * string).

Fixpoint headerValue (k : string) (hs : Headers) : JsValue :=
  match hs with
  | [] => JUndefined
  | (k', v) :: rest => if k =? k' then JStr v else headerValue k rest
  end.

Definition headersObject (hs : Headers) : JsValue :=
  JObj (map (fun kv => (fst kv, JStr (snd kv))) hs).

Record Request : Type := {
  req_body : JsValue;
  req_headers : Headers;
  req_file : JsValue;
  req_files : JsValue;
  routingControllersStarted : JsValue
}.

(** The response as plain fields: [response.set] calls are kept in call
    order and [redirect] records its target.  What Koa's own setters do
    besides storing the value is the host framework's business. *)
Record Response : Type := {
  res_body : JsValue;
  res_status : JsValue;
  res_headers : list (string * JsValue);
  res_redirect : option JsValue
}.

Record Context : Type := {
  ctx_request : Request;
  ctx_response : Response;
  ctx_params : JsValue;
  ctx_session : JsValue;
  ctx_state : JsValue;
  ctx_query : JsValue;
  ctx_headers : Headers
}.

(** The [Action] bundle [{ request, response, context, next }] as far as
    the extractor reads it. *)
Record ActionOptions : Type := {
  ao_request : Request;
  ao_context : Context
}.

(** [routeHandler] builds the bundle with [request: context.request]. *)
Definition optionsOf (context : Context) : ActionOptions :=
  {| ao_request := ctx_request context; ao_context := context |}.

Record ParamMetadata : Type := {
  pm_type : string;
  pm_name : option string;
  pm_extraOptions : JsValue
}.

Definition bindR {A B} (r : Result A) (f : A -> Result B) : Result B :=
  match r with Ok a => f a | Throw e => Throw e end.

Notation "x <- r ;; k" := (bindR r (fun x => k))
  (at level 61, r at next level, right associativity).

(** [if (param.name)] *)
Definition nameGiven (name : option string) : bool :=
  match name with Some s => negb (s =? "") | None => false end.

Section ParameterExtractor.

(** What property lookup finds beyond an object's own properties. *)
Variable inheritedMember : JsValue -> string -> JsValue.

(** [cookie.parse] of the cookie package: the cookies of a raw header, by
    name. *)
Variable cookie_parse : string -> list (string * JsValue).

(** The package raises a TypeError when its argument is not a string. *)
Definition cookieParse (v : JsValue) : Result JsValue :=
  match v with JStr s => Ok (JObj (cookie_parse s)) | _ => Throw TypeError end.

Definition getParamFromRequest (actionOptions : ActionOptions)
    (param : ParamMetadata) : Result JsValue :=
  let context := ao_context actionOptions in
  let request := ao_request actionOptions in
  let ty := pm_type param in
  if ty =? "body" then Ok (req_body request)
  else if ty =? "body-param" then
    getProp inheritedMember (req_body request) (propertyKey (pm_name param))
  else if ty =? "param" then
    getProp inheritedMember (ctx_params context) (propertyKey (pm_name param))
  else if ty =? "params" then Ok (ctx_params context)
  else if ty =? "session" then Ok (ctx_session context)
  else if ty =? "session-param" then
    getProp inheritedMember (ctx_session context) (propertyKey (pm_name param))
  else if ty =? "state" then
    if nameGiven (pm_name param)
    then getProp inheritedMember (ctx_state context) (propertyKey (pm_name param))
    else Ok (ctx_state context)
  else if ty =? "query" then
    getProp inheritedMember (ctx_query context) (propertyKey (pm_name param))
  else if ty =? "queries" then Ok (ctx_query context)
  else if ty =? "file" then Ok (req_file (ctx_request (ao_context actionOptions)))
  else if ty =? "files" then Ok (req_files (ctx_request (ao_context actionOptions)))
  else if ty =? "header" then
    match pm_name param with
    | None => Throw TypeError                     (* undefined.toLowerCase() *)
    | Some n => getProp inheritedMember (headersObject (ctx_headers context)) (toLowerCase n)
    end
  else if ty =? "headers" then Ok (headersObject (req_headers request))
  else if ty =? "cookie" then
    (* [context.headers.cookie]: no prototype defines a member of that name *)
    let raw := headerValue "cookie" (ctx_headers context) in
    if negb (truthy raw) then Ok JUndefined
    else
      cookies <- cookieParse raw ;;
      getProp inheritedMember cookies (propertyKey (pm_name param))
  else if ty =? "cookies" then
    let raw := headerValue "cookie" (req_headers request) in
    if negb (truthy raw) then Ok (JObj [])
    else cookieParse raw
  else Ok JUndefined.

End ParameterExtractor.

(** ** Middlewares *)

(** The two things the dispatch does that the claims count: the route
    guard setting the flag, and a route handler starting an action. *)
Inductive Event : Type :=
| EvFlagSet
| EvAction (method : string).

(** The state one request is processed in: the Koa context, the ghost
    log of dispatch events, and the middlewares [handleSuccess] adds to
    the application for a rendered template. *)
Record World : Type := {
  ctx : Context;
  log : list Event;
  appUses : list (JsValue * JsValue)
}.

(** How a call ends: a value or resolved promise, a synchronous throw, or
    a rejected promise. *)
Inductive Completion : Type :=
| Fulfilled
| Thrown (e : JsError)
| Rejected (e : JsError).

Definition Outcome : Type := World * Completion.
Definition Cont : Type := World -> Outcome.
Definition Middleware : Type := World -> Cont -> Outcome.

Definition setCtx (w : World) (c : Context) : World :=
  {| ctx := c; log := log w; appUses := appUses w |}.

Definition setResponse (w : World) (r : Response) : World :=
  setCtx w {| ctx_request := ctx_request (ctx w);
              ctx_response := r;
              ctx_params := ctx_params (ctx w);
              ctx_session := ctx_session (ctx w);
              ctx_state := ctx_state (ctx w);
              ctx_query := ctx_query (ctx w);
              ctx_headers := ctx_headers (ctx w) |}.

Definition emit (ev : Event) (w : World) : World :=
  {| ctx := ctx w; log := log w ++ [ev]; appUses := appUses w |}.

(** Code that is not the driver's: a user middleware, the upload
    middleware, the action callback.  It works on the context, then either
    calls [next] once or finishes by itself, and after [next] settles it
    may work on the context again.  (koa-compose rejects a second call of
    [next].) *)
Inductive Decision : Type :=
| CallNext
| Finish (c : Completion).

Record UserCode : Type := {
  uc_enter : Context -> Context * Decision;
  uc_leave : Context -> Completion -> Context * Completion
}.

Definition runUser (u : UserCode) : Middleware :=
  fun w next =>
    let (c1, d) := uc_enter u (ctx w) in
    match d with
    | Finish r => (setCtx w c1, r)
    | CallNext =>
        let (w2, r) := next (setCtx w c1) in
        let (c3, r') := uc_leave u (ctx w2) r in
        (setCtx w2 c3, r')
    end.

(** ** Metadata *)

(** What an authorization check gives back: a plain value, a synchronous
    throw, or a promise-like that resolves or rejects. *)
Inductive CheckResult : Type :=
| CheckValue (v : JsValue)
| CheckThrows (e : JsError)
| CheckResolves (v : JsValue)
| CheckRejects (e : JsError).

(** [actionMetadata.authorizedRoles]: an array of roles, or a class whose
    instance has a [check] method; the [length] of a class is the number
    of parameters of its constructor. *)
Inductive AuthorizedRoles : Type :=
| RolesArray (roles : list JsValue)
| RolesClass (arity : nat) (check : Context -> Context * CheckResult).

Definition rolesLength (r : AuthorizedRoles) : nat :=
  match r with
  | RolesArray roles => length roles
  | RolesClass arity _ => arity
  end.

(** A [use] entry.  [mw_prototype] is [use.middleware.prototype]: absent,
    or present with or without a [use] method; [mw_function] is what
    calling [use.middleware] itself does. *)
Record Use : Type := {
  mw_prototype : option (option UserCode);
  mw_function : UserCode;
  afterAction : bool
}.

Inductive Route : Type :=
| RouteString (s : string)
| RouteRegExp (source : string).

Record ActionMetadata : Type := {
  am_type : string;
  am_method : string;
  fullRoute : Route;
  isAuthorizedUsed : bool;
  authorizedRoles : AuthorizedRoles;
  isFileUsed : bool;
  isFilesUsed : bool;
  am_params : list ParamMetadata;
  controllerUses : list Use;
  am_uses : list Use;
  redirect : JsValue;
  renderedTemplate : JsValue;
  undefinedResultCode : JsValue;
  nullResultCode : JsValue;
  successHttpCode : JsValue;
  am_headers : list (string * JsValue);
  isJsonTyped : bool
}.

(** ** The driver *)

Record Multer : Type := {
  multer_single : JsValue -> option string -> UserCode;
  multer_array : JsValue -> option string -> UserCode
}.

(** The members of [this] the methods below read.  [processJsonError],
    [processTextError] and [transformResult] are inherited from
    BaseDriver; [multer] is what [loadMulter] finds. *)
Record KoaDriver : Type := {
  isDefaultErrorHandlingEnabled : bool;
  authorizationChecker : option (Context -> list JsValue -> Context * CheckResult);
  routePrefix : string;
  multer : option Multer;
  processJsonError : JsError -> JsValue;
  processTextError : JsError -> JsValue;
  transformResult : JsValue -> ActionMetadata -> JsValue
}.

Record Layer : Type := {
  layer_method : string;
  layer_route : Route;
  layer_stack : list Middleware
}.

(** What the action returned: the response object, the context object, or
    a value. *)
Inductive ActionResult : Type :=
| TheResponse
| TheContext
| Value (v : JsValue).

Definition responseSet (r : Response) (nv : string * JsValue) : Response :=
  {| res_body := res_body r; res_status := res_status r;
     res_headers := res_headers r ++ [nv]; res_redirect := res_redirect r |}.

Definition setBody (v : JsValue) (r : Response) : Response :=
  {| res_body := v; res_status := res_status r;
     res_headers := res_headers r; res_redirect := res_redirect r |}.

Definition setStatus (v : JsValue) (r : Response) : Response :=
  {| res_body := res_body r; res_status := v;
     res_headers := res_headers r; res_redirect := res_redirect r |}.

Definition responseRedirect (url : JsValue) (r : Response) : Response :=
  {| res_body := res_body r; res_status := res_status r;
     res_headers := res_headers r; res_redirect := Some url |}.

(** [Object.keys(action.headers).forEach(name => response.set(...))] *)
Definition applyHeaders (headers : list (string * JsValue)) (r : Response) : Response :=
  fold_left responseSet headers r.

Definition koaUse (entry : JsValue * JsValue) (w : World) : World :=
  {| ctx := ctx w; log := log w; appUses := appUses w ++ [entry] |}.

(** [Buffer.from(result)] *)
Definition bufferFrom (v : JsValue) : JsValue :=
  match v with JBytes _ bytes => JBytes true bytes | _ => v end.

Definition functionName (v : JsValue) : string :=
  match v with JFunction name => name | _ => "" end.

Section Driver.

(** What the module imports and this file does not define: the error
    classes ([error instanceof HttpError], [error.httpCode]), the
    template-url package, which throws when the object lacks a parameter
    of the template, and [ActionMetadata.appendBaseRoute], which may throw
    as well. *)
Variable instanceofHttpError : JsError -> bool.
Variable httpCodeOf : JsError -> JsValue.
Variable templateUrl : JsValue -> JsValue -> Result JsValue.
Variable appendBaseRoute : string -> Route -> Result Route.

(** Whether the router has a registration method of that name ([get],
    [post], [all], ...); calling one it does not have is a TypeError. *)
Variable routerHasMethod : string -> bool.

(** *** handleError *)

Definition handleError (d : KoaDriver) (error : JsError)
    (action : option ActionMetadata) (w : World) : Outcome :=
  if isDefaultErrorHandlingEnabled d then
    (* apply http headers *)
    let r1 :=
      match action with
      | Some a => applyHeaders (am_headers a) (ctx_response (ctx w))
      | None => ctx_response (ctx w)
      end in
    (* send error content *)
    let r2 :=
      if match action with Some a => isJsonTyped a | None => false end
      then setBody (processJsonError d error) r1
      else setBody (processTextError d error) r1 in
    (* set http status *)
    let r3 :=
      if instanceofHttpError error && truthy (httpCodeOf error)
      then setStatus (httpCodeOf error) r2
      else setStatus (JNum 500) r2 in
    (setResponse w r3, Fulfilled)
  else (w, Rejected error).

(** *** handleSuccess *)

(** The branch that redirects, renders or assigns the body; it may throw. *)
Definition deliver (action : ActionMetadata) (result : JsValue) (w : World)
    : Result World :=
  let resp := ctx_response (ctx w) in
  if truthy (redirect action) then
    match result with
    | JStr _ => Ok (setResponse w (responseRedirect result resp))
    | _ =>
        if instanceofObject result
        then
          url <- templateUrl (redirect action) result ;;
          Ok (setResponse w (responseRedirect url resp))
        else Ok (setResponse w (responseRedirect (redirect action) resp))
    end
  else if truthy (renderedTemplate action) then
    let renderOptions :=
      if truthy result && instanceofObject result then result else JObj [] in
    Ok (koaUse (renderedTemplate action, renderOptions) w)
  else
    match result with
    | JUndefined =>
        if instanceofFunction (undefinedResultCode action)
        then Throw (ConstructedError (functionName (undefinedResultCode action)))
        else if negb (truthy (undefinedResultCode action))
        then Throw NotFoundError
        else Ok w
    | JNull =>
        if instanceofFunction (nullResultCode action)
        then Throw (ConstructedError (functionName (nullResultCode action)))
        else Ok (setResponse w (setBody JNull resp))
    | _ =>
        if instanceofUint8Array result
        then Ok (setResponse w (setBody (bufferFrom result) resp))
        else Ok (setResponse w (setBody result resp))
    end.

Definition isUndefined (v : JsValue) : bool :=
  match v with JUndefined => true | _ => false end.

Definition isNull (v : JsValue) : bool :=
  match v with JNull => true | _ => false end.

(** set http status code *)
Definition resolveStatus (action : ActionMetadata) (result : JsValue)
    (resp : Response) : Response :=
  if isUndefined result && truthy (undefinedResultCode action) then
    setStatus (undefinedResultCode action) resp
  else if isNull result && truthy (nullResultCode action) then
    setStatus (nullResultCode action) resp
  else if truthy (successHttpCode action) then
    setStatus (successHttpCode action) resp
  else if isNull (res_body resp) then
    setStatus (JNum 204) resp
  else resp.

Definition handleSuccess (d : KoaDriver) (result : ActionResult)
    (action : ActionMetadata) (w : World) (next : Cont) : Outcome :=
  match result with
  | TheResponse | TheContext => next w
  | Value returned =>
      (* transform result if needed *)
      let result := transformResult d returned action in
      match deliver action result w with
      | Throw e => (w, Thrown e)
      | Ok w1 =>
          let w2 := setResponse w1 (resolveStatus action result (ctx_response (ctx w1))) in
          (* apply http headers *)
          let w3 := setResponse w2 (applyHeaders (am_headers action) (ctx_response (ctx w2))) in
          next w3
      end
  end.

(** *** registerAction *)

Definition started (c : Context) : bool :=
  truthy (routingControllersStarted (ctx_request c)).

Definition markStarted (c : Context) : Context :=
  {| ctx_request :=
       {| req_body := req_body (ctx_request c);
          req_headers := req_headers (ctx_request c);
          req_file := req_file (ctx_request c);
          req_files := req_files (ctx_request c);
          routingControllersStarted := JBool true |};
     ctx_response := ctx_response c;
     ctx_params := ctx_params c;
     ctx_session := ctx_session c;
     ctx_state := ctx_state c;
     ctx_query := ctx_query c;
     ctx_headers := ctx_headers c |}.

(** The middleware that only starts an action if the request has not been
    processed before. *)
Definition routeGuard : Middleware :=
  fun w next =>
    if negb (started (ctx w)) then
      next (emit EvFlagSet (setCtx w (markStarted (ctx w))))
    else (w, Fulfilled).

(** [try { ... } catch (error) { ... }] around a call. *)
Definition tryCatch (o : Outcome) (handler : JsError -> World -> Outcome) : Outcome :=
  match o with
  | (w, Thrown e) => handler e w
  | _ => o
  end.

(** [promise.catch(error => ...)]; a throw inside the [then] callback is
    a rejection too. *)
Definition promiseCatch (o : Outcome) (handler : JsError -> World -> Outcome) : Outcome :=
  match o with
  | (w, Thrown e) | (w, Rejected e) => handler e w
  | _ => o
  end.

(** The default middleware pushed when [actionMetadata.isAuthorizedUsed]. *)
Definition authorizationMiddleware (d : KoaDriver) (actionMetadata : ActionMetadata)
    : Middleware :=
  fun w next =>
    match authorizationChecker d with
    | None => (w, Thrown AuthorizationCheckerNotDefinedError)
    | Some checker =>
        let onCheckResult (result : JsValue) (w : World) : Outcome :=
          if negb (truthy result) then
            let error :=
              if (rolesLength (authorizedRoles actionMetadata) =? 0)%nat
              then AuthorizationRequiredError
              else AccessDeniedError in
            handleError d error (Some actionMetadata) w
          else next w in
        let onError (error : JsError) (w : World) : Outcome :=
          handleError d error (Some actionMetadata) w in
        let (c1, checkResult) :=
          match authorizedRoles actionMetadata with
          | RolesClass _ check => check (ctx w)
          | RolesArray roles => checker (ctx w) roles
          end in
        let w1 := setCtx w c1 in
        match checkResult with
        | CheckThrows e => onError e w1
        | CheckResolves result => promiseCatch (onCheckResult result w1) onError
        | CheckRejects e => onError e w1
        | CheckValue result => tryCatch (onCheckResult result w1) onError
        end
    end.

(** *** prepareMiddlewares *)

Definition isMiddlewareClass (use : Use) : bool :=
  match mw_prototype use with
  | Some (Some _) => true
  | _ => false
  end.

(** The wrapper pushed for an instance of MiddlewareInterface. *)
Definition wrapMiddlewareClass (d : KoaDriver) (instanceUse : UserCode) : Middleware :=
  fun w next =>
    promiseCatch (runUser instanceUse w next)
      (fun error w' => handleError d error None w').

Definition prepareMiddleware (d : KoaDriver) (use : Use) : Middleware :=
  match mw_prototype use with
  | Some (Some instanceUse) => wrapMiddlewareClass d instanceUse
  | _ => runUser (mw_function use)
  end.

Definition prepareMiddlewares (d : KoaDriver) (uses : list Use) : list Middleware :=
  fold_left (fun middlewareFunctions use =>
               middlewareFunctions ++ [prepareMiddleware d use])
            uses [].

(** *** The route and the chain *)

Definition endsWithSlash (s : string) : bool :=
  match String.get (String.length s - 1) s with
  | Some c => Ascii.eqb c "/"%char
  | None => false
  end.

Definition normalizeRoute (route : Route) : Route :=
  match route with
  | RouteString s =>
      if (1 <? String.length s)%nat && endsWithSlash s
      then RouteString (substring 0 (String.length s - 1) s)
      else route
  | RouteRegExp _ => route
  end.

Definition isParamOfType (ty : string) (param : ParamMetadata) : bool :=
  pm_type param =? ty.

Definition multerMissing : JsError :=
  UserError (JStr "@koa/multer package was not found installed. Try to install it: npm install @koa/multer --save").

Definition uploadMiddlewares (d : KoaDriver) (actionMetadata : ActionMetadata)
    : Result (list Middleware) :=
  if isFileUsed actionMetadata || isFilesUsed actionMetadata then
    match multer d with
    | None => Throw multerMissing
    | Some m =>
        Ok (map (fun param => runUser (multer_single m (pm_extraOptions param) (pm_name param)))
                (filter (isParamOfType "file") (am_params actionMetadata))
            ++
            map (fun param => runUser (multer_array m (pm_extraOptions param) (pm_name param)))
                (filter (isParamOfType "files") (am_params actionMetadata)))
    end
  else Ok [].

(** [routeHandler]: builds the options and calls [executeCallback]; the
    start of the action is noted in the log. *)
Definition routeHandler (actionMetadata : ActionMetadata) (executeCallback : UserCode)
    : Middleware :=
  fun w next => runUser executeCallback (emit (EvAction (am_method actionMetadata)) w) next.

Definition registerAction (d : KoaDriver) (actionMetadata : ActionMetadata)
    (executeCallback : UserCode) : Result Layer :=
  let authMiddlewares :=
    if isAuthorizedUsed actionMetadata
    then [authorizationMiddleware d actionMetadata] else [] in
  uploads <- uploadMiddlewares d actionMetadata ;;
  let defaultMiddlewares := authMiddlewares ++ uploads in
  let uses := controllerUses actionMetadata ++ am_uses actionMetadata in
  let beforeMiddlewares :=
    prepareMiddlewares d (filter (fun use => negb (afterAction use)) uses) in
  let afterMiddlewares := prepareMiddlewares d (filter afterAction uses) in
  fullPath <- appendBaseRoute (routePrefix d) (fullRoute actionMetadata) ;;
  let route := normalizeRoute fullPath in
  (* finally register action in koa *)
  if routerHasMethod (toLowerCase (am_type actionMetadata)) then
    Ok {| layer_method := toLowerCase (am_type actionMetadata);
          layer_route := route;
          layer_stack :=
            routeGuard :: beforeMiddlewares ++ defaultMiddlewares
              ++ [routeHandler actionMetadata executeCallback] ++ afterMiddlewares |}
  else Throw TypeError.

(** *** The host: koa-compose and the router *)

(** A middleware's synchronous throw reaches its caller as a rejected
    promise. *)
Definition settle (o : Outcome) : Outcome :=
  match o with
  | (w, Thrown e) => (w, Rejected e)
  | _ => o
  end.

Fixpoint compose (stack : list Middleware) (next : Cont) : Cont :=
  match stack with
  | [] => fun w => settle (next w)
  | m :: rest => fun w => settle (m w (compose rest next))
  end.

(** [router.routes()]: the stacks of the layers that match the request, in
    registration order, run as one chain. *)
Definition routerRoutes (matches : Layer -> Context -> bool) (layers : list Layer)
    : Middleware :=
  fun w next =>
    compose (flat_map layer_stack (filter (fun l => matches l (ctx w)) layers)) next w.

(** ** What the properties below are stated with *)

(** The kinds of parameter descriptor the extractor documents. *)
Inductive Kind : Type :=
| KBody | KBodyParam | KParam | KParams | KSession | KSessionParam | KState
| KQuery | KQueries | KFile | KFiles | KHeader | KHeaders | KCookie | KCookies.

Definition kindName (k : Kind) : string :=
  match k with
  | KBody => "body" | KBodyParam => "body-param"
  | KParam => "param" | KParams => "params"
  | KSession => "session" | KSessionParam => "session-param"
  | KState => "state"
  | KQuery => "query" | KQueries => "queries"
  | KFile => "file" | KFiles => "files"
  | KHeader => "header" | KHeaders => "headers"
  | KCookie => "cookie" | KCookies => "cookies"
  end.

Definition recognizedKinds : list string :=
  map kindName
    [KBody; KBodyParam; KParam; KParams; KSession; KSessionParam; KState;
     KQuery; KQueries; KFile; KFiles; KHeader; KHeaders; KCookie; KCookies].

(** The named field of a container: what reading [container[name]] gives
    on a container that is there. *)
Definition namedField (inheritedMember : JsValue -> string -> JsValue)
    (container : JsValue) (name : option string) : JsValue :=
  memberOf inheritedMember container (propertyKey name).

Definition lowerName (name : option string) : string :=
  match name with Some n => toLowerCase n | None => "" end.

(** The mapping table of the extractor as it is documented: the source of
    the value for each kind, and the fallback when the cookie header is
    absent.  This definition follows the documentation, not the code. *)
Definition documentedSource (inheritedMember : JsValue -> string -> JsValue)
    (cookie_parse : string -> list (string * JsValue))
    (k : Kind) (context : Context) (name : option string) : JsValue :=
  match k with
  | KBody => req_body (ctx_request context)
  | KBodyParam => namedField inheritedMember (req_body (ctx_request context)) name
  | KParam => namedField inheritedMember (ctx_params context) name
  | KParams => ctx_params context
  | KSession => ctx_session context
  | KSessionParam => namedField inheritedMember (ctx_session context) name
  | KState =>
      if nameGiven name then namedField inheritedMember (ctx_state context) name
      else ctx_state context
  | KQuery => namedField inheritedMember (ctx_query context) name
  | KQueries => ctx_query context
  | KFile => req_file (ctx_request context)
  | KFiles => req_files (ctx_request context)
  | KHeader => memberOf inheritedMember (headersObject (ctx_headers context)) (lowerName name)
  | KHeaders => headersObject (req_headers (ctx_request context))
  | KCookie =>
      match headerValue "cookie" (ctx_headers context) with
      | JStr raw =>
          if raw =? "" then JUndefined
          else namedField inheritedMember (JObj (cookie_parse raw)) name
      | _ => JUndefined
      end
  | KCookies =>
      match headerValue "cookie" (req_headers (ctx_request context)) with
      | JStr raw => if raw =? "" then JObj [] else JObj (cookie_parse raw)
      | _ => JObj []
      end
  end.

(** [v] is neither [undefined] nor [null]. *)
Definition present (v : JsValue) : bool :=
  match v with JUndefined | JNull => false | _ => true end.

(** The object a named kind indexes is there (and a header has its name). *)
Definition indexable (k : Kind) (context : Context) (name : option string) : bool :=
  match k with
  | KBodyParam => present (req_body (ctx_request context))
  | KParam => present (ctx_params context)
  | KSessionParam => present (ctx_session context)
  | KState => negb (nameGiven name) || present (ctx_state context)
  | KQuery => present (ctx_query context)
  | KHeader => match name with Some _ => true | None => false end
  | _ => true
  end.

Definition isAction (ev : Event) : bool :=
  match ev with EvAction _ => true | EvFlagSet => false end.

Definition isFlagSet (ev : Event) : bool :=
  match ev with EvFlagSet => true | EvAction _ => false end.

Definition countActions (l : list Event) : nat := length (filter isAction l).
Definition countFlagSets (l : list Event) : nat := length (filter isFlagSet l).

(** Code of the user or of a library leaves a flag that is set, set. *)
Definition keepsFlag (u : UserCode) : Prop :=
  (forall c, started c = true -> started (fst (uc_enter u c)) = true) /\
  (forall c r, started c = true -> started (fst (uc_leave u c r)) = true).

Definition useKeepsFlag (use : Use) : Prop :=
  keepsFlag (mw_function use) /\
  match mw_prototype use with
  | Some (Some instanceUse) => keepsFlag instanceUse
  | _ => True
  end.

Definition rolesKeepFlag (r : AuthorizedRoles) : Prop :=
  match r with
  | RolesClass _ check => forall c, started c = true -> started (fst (check c)) = true
  | RolesArray _ => True
  end.

Definition driverKeepsFlag (d : KoaDriver) : Prop :=
  match authorizationChecker d with
  | Some checker =>
      forall c roles, started c = true -> started (fst (checker c roles)) = true
  | None => True
  end /\
  match multer d with
  | Some m =>
      forall extraOptions name,
        keepsFlag (multer_single m extraOptions name) /\
        keepsFlag (multer_array m extraOptions name)
  | None => True
  end.

Definition registrationKeepsFlag (reg : ActionMetadata * UserCode) : Prop :=
  Forall useKeepsFlag (controllerUses (fst reg) ++ am_uses (fst reg)) /\
  rolesKeepFlag (authorizedRoles (fst reg)) /\
  keepsFlag (snd reg).

(** What follows the router in the application, as a continuation. *)
Definition userCont (u : UserCode) : Cont :=
  fun w => runUser u w (fun w' => (w', Fulfilled)).

(** [w'] is started and its log is that of [w] followed by at most [n]
    action starts and no flag write. *)
Definition Within (n : nat) (w w' : World) : Prop :=
  started (ctx w') = true /\
  exists extra, log w' = log w ++ extra /\
                countActions extra <= n /\ countFlagSets extra = 0.

(** From a request already started, [k] stays [Within n]. *)
Definition Bounded (n : nat) (k : Cont) : Prop :=
  forall w, started (ctx w) = true -> Within n w (fst (k w)).

Definition Tame (m : Middleware) : Prop :=
  forall n k, Bounded n k -> Bounded n (fun w => m w k).

(** [k] starts no action. *)
Definition Quiet (k : Cont) : Prop :=
  forall w, countActions (log (fst (k w))) = countActions (log w).

(** The check the authorization middleware runs. *)
Definition runCheck (checker : Context -> list JsValue -> Context * CheckResult)
    (actionMetadata : ActionMetadata) (c : Context) : Context * CheckResult :=
  match authorizedRoles actionMetadata with
  | RolesClass _ check => check c
  | RolesArray roles => checker c roles
  end.

(** A layer that [registerAction] produced from an action whose user code
    keeps the flag. *)
Definition Registered (d : KoaDriver) (layer : Layer) : Prop :=
  exists actionMetadata executeCallback,
    registerAction d actionMetadata executeCallback = Ok layer /\
    registrationKeepsFlag (actionMetadata, executeCallback).

(** [w'] differs from [w] in the response at most. *)
Definition sameExceptResponse (w w' : World) : Prop :=
  ctx_request (ctx w') = ctx_request (ctx w) /\
  ctx_params (ctx w') = ctx_params (ctx w) /\
  ctx_session (ctx w') = ctx_session (ctx w) /\
  ctx_state (ctx w') = ctx_state (ctx w) /\
  ctx_query (ctx w') = ctx_query (ctx w) /\
  ctx_headers (ctx w') = ctx_headers (ctx w) /\
  log w' = log w /\
  appUses w' = appUses w.

(** *** Sample data *)

Definition emptyRequest : Request :=
  {| req_body := JObj []; req_headers := []; req_file := JUndefined;
     req_files := JUndefined; routingControllersStarted := JUndefined |}.

Definition emptyResponse : Response :=
  {| res_body := JUndefined; res_status := JNum 404; res_headers := [];
     res_redirect := None |}.

(** A Koa context with no session middleware installed. *)
Definition freshContext : Context :=
  {| ctx_request := emptyRequest; ctx_response := emptyResponse;
     ctx_params := JObj [("id", JStr "42")]; ctx_session := JUndefined;
     ctx_state := JObj []; ctx_query := JObj []; ctx_headers := [] |}.

Definition freshWorld : World :=
  {| ctx := freshContext; log := []; appUses := [] |}.

Definition passThrough : UserCode :=
  {| uc_enter := fun c => (c, CallNext); uc_leave := fun c r => (c, r) |}.

Definition plainAction (name : string) (route : string) : ActionMetadata :=
  {| am_type := "GET"; am_method := name; fullRoute := RouteString route;
     isAuthorizedUsed := false; authorizedRoles := RolesArray [];
     isFileUsed := false; isFilesUsed := false; am_params := [];
     controllerUses := []; am_uses := [];
     redirect := JUndefined; renderedTemplate := JUndefined;
     undefinedResultCode := JUndefined; nullResultCode := JUndefined;
     successHttpCode := JUndefined; am_headers := [("X-Powered-By", JStr "rc")];
     isJsonTyped := true |}.

Definition guardedAction (roles : list JsValue) : ActionMetadata :=
  {| am_type := "GET"; am_method := "secret"; fullRoute := RouteString "/secret";
     isAuthorizedUsed := true; authorizedRoles := RolesArray roles;
     isFileUsed := false; isFilesUsed := false; am_params := [];
     controllerUses := []; am_uses := [];
     redirect := JUndefined; renderedTemplate := JUndefined;
     undefinedResultCode := JUndefined; nullResultCode := JUndefined;
     successHttpCode := JUndefined; am_headers := [];
     isJsonTyped := false |}.

Definition denyAll : Context -> list JsValue -> Context * CheckResult :=
  fun c _ => (c, CheckValue (JBool false)).

Definition sampleDriver (enabled : bool)
    (checker : option (Context -> list JsValue -> Context * CheckResult)) : KoaDriver :=
  {| isDefaultErrorHandlingEnabled := enabled;
     authorizationChecker := checker;
     routePrefix := "";
     multer := None;
     processJsonError := fun _ => JObj [("name", JStr "error")];
     processTextError := fun _ => JStr "error";
     transformResult := fun v _ => v |}.

(** Sample values for what the module imports. *)
Definition sampleIsHttpError (error : JsError) : bool :=
  match error with
  | UserError (JObj fields) => isDefined (ownProperty "httpCode" fields)
  | _ => false
  end.

Definition sampleHttpCode (error : JsError) : JsValue :=
  match error with
  | UserError (JObj fields) => ownProperty "httpCode" fields
  | _ => JUndefined
  end.

(** template-url on the template "/users/:id". *)
Definition sampleTemplateUrl (template params : JsValue) : Result JsValue :=
  match params with
  | JObj fields =>
      match ownProperty "id" fields with
      | JStr id => Ok (JStr ("/users/" ++ id)%string)
      | _ => Throw (UserError (JStr "Could not find url parameter id in passed options object"))
      end
  | _ => Throw (UserError (JStr "Could not find url parameter id in passed options object"))
  end.

Definition sampleAppendBaseRoute (prefix : string) (route : Route) : Result Route :=
  match route with
  | RouteString s => Ok (RouteString (prefix ++ s)%string)
  | RouteRegExp _ => Ok route
  end.

Definition sampleRouterHasMethod (name : string) : bool :=
  existsb (String.eqb name)
    ["get"; "post"; "put"; "patch"; "delete"; "head"; "options"; "all"].

Definition noCookies : string -> list (string * JsValue) := fun _ => [].

(** Some of what the runtime's prototypes define. *)
Definition sampleInherited (v : JsValue) (k : string) : JsValue :=
  match v with
  | JObj _ =>
      if k =? "toString" then JFunction "toString"
      else if k =? "constructor" then JFunction "Object"
      else JUndefined
  | JStr text =>
      if k =? "length" then JNum (Z.of_nat (String.length text)) else JUndefined
  | _ => JUndefined
  end.

Definition allMatch : Layer -> Context -> bool := fun _ _ => true.

Definition finished : Cont := fun w => (w, Fulfilled).

(** The layer of a registration that succeeds. *)
Definition layerOf (r : Result Layer) : Layer :=
  match r with
  | Ok layer => layer
  | Throw _ => {| layer_method := ""; layer_route := RouteString ""; layer_stack := [] |}
  end.

Definition startedWorld : World :=
  emit EvFlagSet (setCtx freshWorld (markStarted freshContext)).

(** ** Setting up the driver *)

(** What the constructor can reach: whether [require] is defined, and
    which packages it finds. *)
Record NodeEnv : Type := {
  requireDefined : bool;
  packageInstalled : string -> bool
}.

(** A koa or router object: the one handed to the constructor, or a new
    one of a loaded package. *)
Inductive Instance : Type :=
| Given (name : string)
| Constructed (package : string).

Definition errorOf (message : string) : JsError := UserError (JStr message).

(** [koa] is [this.koa]: [None] when the constructor got none. *)
Definition loadKoa (env : NodeEnv) (koa : option Instance) : Result Instance :=
  if requireDefined env then
    match koa with
    | Some k => Ok k
    | None =>
        if packageInstalled env "koa" then Ok (Constructed "koa")
        else Throw (errorOf "koa package was not found installed. Try to install it: npm install koa@next --save")
    end
  else Throw (errorOf "Cannot load koa. Try to install all required dependencies.").

Definition loadRouter (env : NodeEnv) (router : option Instance) : Result Instance :=
  if requireDefined env then
    match router with
    | Some r => Ok r
    | None =>
        if packageInstalled env "@koa/router" then Ok (Constructed "@koa/router")
        else Throw (errorOf "@koa/router package was not found installed. Try to install it: npm install @koa/router --save")
    end
  else Throw (errorOf "Cannot load koa. Try to install all required dependencies.").

Record DriverInstances : Type := {
  di_koa : Instance;
  di_router : Instance;
  di_app : Instance
}.

(** [new KoaDriver(koa, router)] *)
Definition construct (env : NodeEnv) (koa router : option Instance)
    : Result DriverInstances :=
  k <- loadKoa env koa ;;
  r <- loadRouter env router ;;
  Ok {| di_koa := k; di_router := r; di_app := k |}.

(** What [koa.use] is given while the application is set up. *)
Inductive AppUse : Type :=
| UseBodyParser
| UseCors (options : option JsValue)
| UseGlobal (instanceUse : UserCode)
| UseRoutes
| UseAllowedMethods.

(** [initialize]; [corsOption] is [this.cors] and [koa] the middlewares
    the application has so far. *)
Definition initialize (corsOption : JsValue) (koa : list AppUse) : list AppUse :=
  let koa := koa ++ [UseBodyParser] in
  if truthy corsOption then
    match corsOption with
    | JBool true => koa ++ [UseCors None]
    | _ => koa ++ [UseCors (Some corsOption)]
    end
  else koa.

(** [registerMiddleware]; [instanceUse] is [middleware.instance.use]. *)
Definition registerMiddleware (instanceUse : option UserCode) (koa : list AppUse)
    : list AppUse :=
  match instanceUse with
  | Some u => koa ++ [UseGlobal u]
  | None => koa
  end.

Definition registerRoutes (koa : list AppUse) : list AppUse :=
  (koa ++ [UseRoutes]) ++ [UseAllowedMethods].

(** The kind that hands over the whole object a named kind reads from. *)
Definition wholeOf (k : Kind) : option Kind :=
  match k with
  | KBodyParam => Some KBody
  | KParam => Some KParams
  | KSessionParam => Some KSession
  | KState => Some KState
  | KQuery => Some KQueries
  | KHeader => Some KHeaders
  | KCookie => Some KCookies
  | _ => None
  end.

(** The key a named kind reads: the name, in lower case for a header. *)
Definition keyOf (k : Kind) (name : option string) : string :=
  match k with
  | KHeader => lowerName name
  | _ => propertyKey name
  end.

(** The object a named kind reads its key from, when it reads one. *)
Definition containerOf (cookie_parse : string -> list (string * JsValue))
    (k : Kind) (context : Context) (name : option string) : option JsValue :=
  match k with
  | KBodyParam => Some (req_body (ctx_request context))
  | KParam => Some (ctx_params context)
  | KSessionParam => Some (ctx_session context)
  | KState => if nameGiven name then Some (ctx_state context) else None
  | KQuery => Some (ctx_query context)
  | KHeader =>
      match name with
      | Some _ => Some (headersObject (ctx_headers context))
      | None => None
      end
  | KCookie =>
      match headerValue "cookie" (ctx_headers context) with
      | JStr raw => if raw =? "" then None else Some (JObj (cookie_parse raw))
      | _ => None
      end
  | _ => None
  end.

Definition paramOf (k : Kind) (name : option string) : ParamMetadata :=
  {| pm_type := kindName k; pm_name := name; pm_extraOptions := JUndefined |}.

(** An action without authorization, uploads or user middlewares. *)
Definition isBare (actionMetadata : ActionMetadata) : bool :=
  negb (isAuthorizedUsed actionMetadata)
  && negb (isFileUsed actionMetadata || isFilesUsed actionMetadata)
  && match controllerUses actionMetadata ++ am_uses actionMetadata with
     | [] => true
     | _ :: _ => false
     end.

Definition countParams (ty : string) (actionMetadata : ActionMetadata) : nat :=
  length (filter (isParamOfType ty) (am_params actionMetadata)).

Definition sampleEnv (koaInstalled routerInstalled : bool) : NodeEnv :=
  {| requireDefined := true;
     packageInstalled := fun p =>
       if p =? "koa" then koaInstalled
       else if p =? "@koa/router" then routerInstalled else false |}.

Definition grantAll : Context -> list JsValue -> Context * CheckResult :=
  fun c _ => (c, CheckValue (JBool true)).

Definition grantAllLater : Context -> list JsValue -> Context * CheckResult :=
  fun c _ => (c, CheckResolves (JBool true)).

Definition failingCheck : Context -> list JsValue -> Context * CheckResult :=
  fun c _ => (c, CheckThrows (errorOf "no token")).

Definition failing : Cont := fun w => (w, Rejected (errorOf "boom")).

Definition redirectAction : ActionMetadata :=
  {| am_type := "GET"; am_method := "go"; fullRoute := RouteString "/go";
     isAuthorizedUsed := false; authorizedRoles := RolesArray [];
     isFileUsed := false; isFilesUsed := false; am_params := [];
     controllerUses := []; am_uses := [];
     redirect := JStr "/users/:id"; renderedTemplate := JUndefined;
     undefinedResultCode := JUndefined; nullResultCode := JUndefined;
     successHttpCode := JUndefined; am_headers := [];
     isJsonTyped := false |}.

Definition renderAction : ActionMetadata :=
  {| am_type := "GET"; am_method := "page"; fullRoute := RouteString "/page";
     isAuthorizedUsed := false; authorizedRoles := RolesArray [];
     isFileUsed := false; isFilesUsed := false; am_params := [];
     controllerUses := []; am_uses := [];
     redirect := JUndefined; renderedTemplate := JStr "page.html";
     undefinedResultCode := JUndefined; nullResultCode := JUndefined;
     successHttpCode := JUndefined; am_headers := [];
     isJsonTyped := false |}.

(** [@OnUndefined(204)], [@OnNull(404)] and [@HttpCode(201)] on one action. *)
Definition codedAction : ActionMetadata :=
  {| am_type := "GET"; am_method := "find"; fullRoute := RouteString "/find";
     isAuthorizedUsed := false; authorizedRoles := RolesArray [];
     isFileUsed := false; isFilesUsed := false; am_params := [];
     controllerUses := []; am_uses := [];
     redirect := JUndefined; renderedTemplate := JUndefined;
     undefinedResultCode := JNum 204; nullResultCode := JNum 404;
     successHttpCode := JNum 201; am_headers := [];
     isJsonTyped := true |}.

(** [@OnUndefined(UserNotFoundError)] and [@OnNull(UserNotFoundError)]. *)
Definition classCodedAction : ActionMetadata :=
  {| am_type := "GET"; am_method := "find"; fullRoute := RouteString "/find";
     isAuthorizedUsed := false; authorizedRoles := RolesArray [];
     isFileUsed := false; isFilesUsed := false; am_params := [];
     controllerUses := []; am_uses := [];
     redirect := JUndefined; renderedTemplate := JUndefined;
     undefinedResultCode := JFunction "UserNotFoundError";
     nullResultCode := JFunction "UserNotFoundError";
     successHttpCode := JUndefined; am_headers := [];
     isJsonTyped := true |}.

Definition uploadAction : ActionMetadata :=
  {| am_type := "POST"; am_method := "upload"; fullRoute := RouteString "/upload";
     isAuthorizedUsed := false; authorizedRoles := RolesArray [];
     isFileUsed := true; isFilesUsed := false;
     am_params := [ {| pm_type := "file"; pm_name := Some "avatar";
                       pm_extraOptions := JUndefined |} ];
     controllerUses := []; am_uses := [];
     redirect := JUndefined; renderedTemplate := JUndefined;
     undefinedResultCode := JUndefined; nullResultCode := JUndefined;
     successHttpCode := JUndefined; am_headers := [];
     isJsonTyped := true |}.

Definition sampleMulter : Multer :=
  {| multer_single := fun _ _ => passThrough;
     multer_array := fun _ _ => passThrough |}.

Definition uploadDriver : KoaDriver :=
  {| isDefaultErrorHandlingEnabled := true;
     authorizationChecker := None;
     routePrefix := "/api";
     multer := Some sampleMulter;
     processJsonError := fun _ => JObj [("name", JStr "error")];
     processTextError := fun _ => JStr "error";
     transformResult := fun v _ => v |}.

Definition sampleCookies : string -> list (string * JsValue) :=
  fun _ => [("sid", JStr "abc")].

Definition cookieContext : Context :=
  {| ctx_request :=
       {| req_body := JObj []; req_headers := [("cookie", "sid=abc")];
          req_file := JUndefined; req_files := JUndefined;
          routingControllersStarted := JUndefined |};
     ctx_response := emptyResponse;
     ctx_params := JObj []; ctx_session := JUndefined;
     ctx_state := JObj []; ctx_query := JObj [];
     ctx_headers := [("cookie", "sid=abc")] |}.

Definition throwing : UserCode :=
  {| uc_enter := fun c => (c, Finish (Thrown (errorOf "boom")));
     uc_leave := fun c r => (c, r) |}.

Definition passingClass : Use :=
  {| mw_prototype := Some (Some passThrough); mw_function := passThrough;
     afterAction := false |}.

(** A plain function [(ctx, next) => { throw ... }]. *)
Definition throwingPlain : Use :=
  {| mw_prototype := None; mw_function := throwing; afterAction := false |}.

Definition throwingClass : Use :=
  {| mw_prototype := Some (Some throwing); mw_function := passThrough;
     afterAction := false |}.

(** ** The Session decorator *)

(** C8: every call of the Session decorator appends one descriptor of
    type 'session' with parse false; required is true and validate is
    false unless the option is given (not undefined), in which case the
    given value is recorded; classTransform is the transform option
    (undefined when no options are passed). *)
Theorem Session_records_session_descriptor :
  forall options object methodName index storage,
  exists p,
    SessionDecorator.params
      (SessionDecorator.Session options object methodName index storage)
    = SessionDecorator.params storage ++ [p] /\
    SessionDecorator.pa_type p = "session" /\
    SessionDecorator.pa_parse p = false /\
    SessionDecorator.pa_object p = object /\
    SessionDecorator.pa_method p = methodName /\
    SessionDecorator.pa_index p = index /\
    SessionDecorator.pa_required p =
      match option_map SessionDecorator.required options with
      | None | Some JUndefined => JBool true
      | Some given => given
      end /\
    SessionDecorator.pa_validate p =
      match option_map SessionDecorator.validate options with
      | None | Some JUndefined => JBool false
      | Some given => given
      end /\
    SessionDecorator.pa_classTransform p =
      match option_map SessionDecorator.transform options with
      | None => JUndefined
      | Some given => given
      end.
Proof.
  intros options object methodName index storage.
  eexists; split; [reflexivity|].
  cbn [SessionDecorator.pa_type SessionDecorator.pa_parse SessionDecorator.pa_object
       SessionDecorator.pa_method SessionDecorator.pa_index SessionDecorator.pa_required
       SessionDecorator.pa_validate SessionDecorator.pa_classTransform].
  repeat split; destruct options as [o|]; cbn [option_map]; try reflexivity.
  - destruct (SessionDecorator.required o); reflexivity.
  - destruct (SessionDecorator.validate o); reflexivity.
Qed.

(** ** The parameter extractor *)

Lemma headerValue_cases :
  forall k hs, headerValue k hs = JUndefined \/ exists v, headerValue k hs = JStr v.
Proof.
  intros k hs; induction hs as [|[k' v] rest IH]; cbn.
  - now left.
  - destruct (k =? k'); [right; now exists v | exact IH].
Qed.


(** C7 (amended): for a descriptor whose kind is none of the recognized
    kinds the extractor raises nothing: the switch has no default branch
    and the call returns undefined. *)
Theorem getParamFromRequest_unrecognized_kind :
  forall inheritedMember cookie_parse actionOptions param,
    ~ In (pm_type param) recognizedKinds ->
    getParamFromRequest inheritedMember cookie_parse actionOptions param = Ok JUndefined.
Proof.
  intros inheritedMember cookie_parse actionOptions param Hnot.
  unfold getParamFromRequest; cbv zeta.
  repeat match goal with
  | |- context [pm_type param =? ?k] =>
      destruct (String.eqb_spec (pm_type param) k) as [E|_];
      [exfalso; apply Hnot; rewrite E; cbn; tauto|]
  end.
  reflexivity.
Qed.

(** ** The route guard *)

(** C10: on a request whose flag is already set the route guard returns
    without calling the continuation and leaves the request, the response
    and the rest of the state as they were. *)
Theorem routeGuard_blocks_started_request :
  forall w next,
    started (ctx w) = true ->
    routeGuard w next = (w, Fulfilled).
Proof.
  intros w next Hs. unfold routeGuard. now rewrite Hs.
Qed.

(** ** handleError *)

Lemma applyHeaders_appends :
  forall hs r,
    applyHeaders hs r =
    {| res_body := res_body r; res_status := res_status r;
       res_headers := res_headers r ++ hs;
       res_redirect := res_redirect r |}.
Proof.
  unfold applyHeaders.
  induction hs as [|h hs IH]; intro r; cbn.
  - rewrite app_nil_r. now destruct r.
  - rewrite IH. cbn. now rewrite <- app_assoc.
Qed.

(** C4: handleError has exactly one of two outcomes, and in both it
    touches nothing but the response.  With default error handling enabled
    it resolves, and the response of the resulting state has the action's
    headers after those it had if an action is known, the JSON body for a
    JSON-typed action and the text body otherwise, and as status the
    error's httpCode when the error is an HttpError with a code, else 500.
    With default error handling disabled it rejects with the error and the
    state is the one it was given. *)
Theorem handleError_one_outcome :
  forall d error action w,
    sameExceptResponse w (fst (handleError d error action w)) /\
    if isDefaultErrorHandlingEnabled d then
      snd (handleError d error action w) = Fulfilled /\
      ctx_response (ctx (fst (handleError d error action w))) =
        {| res_body :=
             if match action with Some a => isJsonTyped a | None => false end
             then processJsonError d error else processTextError d error;
           res_status :=
             if instanceofHttpError error && truthy (httpCodeOf error)
             then httpCodeOf error else JNum 500;
           res_headers :=
             res_headers (ctx_response (ctx w)) ++
             match action with Some a => am_headers a | None => [] end;
           res_redirect := res_redirect (ctx_response (ctx w)) |}
    else
      handleError d error action w = (w, Rejected error).
Proof.
  intros d error action w. unfold handleError.
  destruct (isDefaultErrorHandlingEnabled d).
  - split; [repeat split|]. split; [reflexivity|]. cbn.
    destruct action as [a|].
    + rewrite applyHeaders_appends.
      destruct (isJsonTyped a);
        destruct (instanceofHttpError error && truthy (httpCodeOf error)); reflexivity.
    + rewrite app_nil_r.
      destruct (instanceofHttpError error && truthy (httpCodeOf error)); reflexivity.
  - split; [repeat split | reflexivity].
Qed.

(** ** handleSuccess *)

(** C5: for an action with neither redirect nor rendered template, a
    result that is undefined (after transformResult) makes handleSuccess
    throw NotFoundError when the action has no undefinedResultCode, leaving
    the state as it was and the continuation uncalled; a result that is
    null, when neither nullResultCode nor successHttpCode is set, calls the
    continuation on a state whose response has the body null, the status
    204 and the action's headers after those it had, and that is otherwise
    the state it was given. *)
Theorem handleSuccess_undefined_and_null :
  forall d action returned w next,
    truthy (redirect action) = false ->
    truthy (renderedTemplate action) = false ->
    (transformResult d returned action = JUndefined ->
     truthy (undefinedResultCode action) = false ->
     handleSuccess d (Value returned) action w next = (w, Thrown NotFoundError)) /\
    (transformResult d returned action = JNull ->
     truthy (nullResultCode action) = false ->
     truthy (successHttpCode action) = false ->
     exists w',
       handleSuccess d (Value returned) action w next = next w' /\
       ctx_response (ctx w') =
         {| res_body := JNull;
            res_status := JNum 204;
            res_headers := res_headers (ctx_response (ctx w)) ++ am_headers action;
            res_redirect := res_redirect (ctx_response (ctx w)) |} /\
       sameExceptResponse w w').
Proof.
  intros d action returned w next Hredirect Hrender. split.
  - intros Hres Hcode. unfold handleSuccess, deliver.
    rewrite Hres, Hredirect, Hrender, Hcode.
    destruct (undefinedResultCode action); cbn in *; try discriminate; reflexivity.
  - intros Hres Hnull Hsuccess. unfold handleSuccess, deliver.
    rewrite Hres, Hredirect, Hrender.
    assert (Hfn : instanceofFunction (nullResultCode action) = false).
    { destruct (nullResultCode action); cbn in *; try discriminate; reflexivity. }
    rewrite Hfn. eexists. split; [reflexivity|]. split; [|repeat split].
    unfold resolveStatus. cbn.
    rewrite Hnull, Hsuccess. cbn.
    rewrite applyHeaders_appends. reflexivity.
Qed.

(** ** prepareMiddlewares *)

Lemma push_all_from :
  forall d uses acc,
    fold_left (fun middlewareFunctions use =>
                 middlewareFunctions ++ [prepareMiddleware d use]) uses acc
    = acc ++ map (prepareMiddleware d) uses.
Proof.
  intros d uses; induction uses as [|use rest IH]; intro acc; cbn.
  - now rewrite app_nil_r.
  - rewrite IH, <- app_assoc. reflexivity.
Qed.

Lemma prepareMiddlewares_map :
  forall d uses, prepareMiddlewares d uses = map (prepareMiddleware d) uses.
Proof.
  intros d uses. unfold prepareMiddlewares. now rewrite push_all_from.
Qed.

(** C9 (amended): prepareMiddlewares returns one function per use, in the
    order given.  For a class with a use method the function runs the
    instance's method and hands a thrown or rejected error to handleError
    without an action.  For any other use the function is the middleware
    itself, with no error handling added: when it stands first in the chain
    and throws, the chain rejects with its error, on the state it left,
    and handleError is not called.  But when it stands behind a middleware
    class whose use method calls next and lets the rejection through, the
    wrapper of that class catches the error and hands it to handleError. *)
Theorem prepareMiddlewares_wraps_only_classes :
  forall d,
    (forall uses,
       length (prepareMiddlewares d uses) = length uses /\
       forall i use,
         nth_error uses i = Some use ->
         exists m,
           nth_error (prepareMiddlewares d uses) i = Some m /\
           (isMiddlewareClass use = false -> m = runUser (mw_function use)) /\
           (forall instanceUse,
              mw_prototype use = Some (Some instanceUse) ->
              forall w next w' r,
                runUser instanceUse w next = (w', r) ->
                m w next =
                  match r with
                  | Fulfilled => (w', Fulfilled)
                  | Thrown error | Rejected error => handleError d error None w'
                  end)) /\
    (forall plain rest w next c' error,
       isMiddlewareClass plain = false ->
       uc_enter (mw_function plain) (ctx w) = (c', Finish (Thrown error)) ->
       compose (prepareMiddlewares d (plain :: rest)) next w =
       (setCtx w c', Rejected error)) /\
    (forall class instanceUse plain w next c1 c2 c3 error error',
       mw_prototype class = Some (Some instanceUse) ->
       isMiddlewareClass plain = false ->
       uc_enter instanceUse (ctx w) = (c1, CallNext) ->
       uc_enter (mw_function plain) c1 = (c2, Finish (Thrown error)) ->
       uc_leave instanceUse c2 (Rejected error) = (c3, Rejected error') ->
       compose (prepareMiddlewares d [class; plain]) next w =
       handleError d error' None (setCtx w c3)).
Proof.
  intros d. split; [|split].
  - intros uses. rewrite prepareMiddlewares_map. split.
    + apply length_map.
    + intros i use Hi. exists (prepareMiddleware d use). split.
      * now rewrite nth_error_map, Hi.
      * unfold prepareMiddleware, isMiddlewareClass. split.
        -- intros Hplain.
           destruct (mw_prototype use) as [[u|]|]; try discriminate; reflexivity.
        -- intros u Hu w next w' r Hrun. rewrite Hu.
           unfold wrapMiddlewareClass, promiseCatch. rewrite Hrun.
           destruct r; reflexivity.
  - intros plain rest w next c' error Hplain Henter.
    rewrite prepareMiddlewares_map. cbn [map compose].
    unfold prepareMiddleware. unfold isMiddlewareClass in Hplain.
    destruct (mw_prototype plain) as [[u|]|]; try discriminate;
      unfold runUser; rewrite Henter; reflexivity.
  - intros class u plain w next c1 c2 c3 error error' Hclass Hplain Hin Hthrow Hout.
    rewrite prepareMiddlewares_map. cbn [map compose].
    unfold prepareMiddleware at 1. rewrite Hclass.
    assert (Hp : prepareMiddleware d plain = runUser (mw_function plain)).
    { unfold prepareMiddleware. unfold isMiddlewareClass in Hplain.
      destruct (mw_prototype plain) as [[v|]|]; try discriminate; reflexivity. }
    rewrite Hp. unfold wrapMiddlewareClass, runUser. rewrite Hin.
    cbn [ctx setCtx]. rewrite Hthrow. cbn [settle ctx setCtx]. rewrite Hout.
    cbn [promiseCatch]. unfold handleError.
    destruct (isDefaultErrorHandlingEnabled d); reflexivity.
Qed.

(** ** The authorization middleware *)

(** C3: when a checker is configured and the check yields a falsy result,
    directly or as the value of a promise, the authorization middleware
    does not call the continuation: whatever the continuation, its outcome
    is that of handleError for the action, with
    AuthorizationRequiredError when authorizedRoles has length 0 and
    AccessDeniedError otherwise, and the log shows no action started. *)
Theorem denied_check_reaches_handleError :
  forall d actionMetadata checker w c1 checkResult result,
    authorizationChecker d = Some checker ->
    runCheck checker actionMetadata (ctx w) = (c1, checkResult) ->
    checkResult = CheckValue result \/ checkResult = CheckResolves result ->
    truthy result = false ->
    exists error,
      (forall next,
         authorizationMiddleware d actionMetadata w next =
         handleError d error (Some actionMetadata) (setCtx w c1)) /\
      (rolesLength (authorizedRoles actionMetadata) = 0 ->
       error = AuthorizationRequiredError) /\
      (rolesLength (authorizedRoles actionMetadata) <> 0 ->
       error = AccessDeniedError) /\
      (forall next,
         log (fst (authorizationMiddleware d actionMetadata w next)) = log w).
Proof.
  intros d a checker w c1 checkResult result Hchecker Hcheck Hkind Hfalsy.
  set (error := if (rolesLength (authorizedRoles a) =? 0)%nat
                then AuthorizationRequiredError else AccessDeniedError).
  assert (Hrun : forall next,
             authorizationMiddleware d a w next =
             handleError d error (Some a) (setCtx w c1)).
  { intro next. unfold authorizationMiddleware. rewrite Hchecker.
    unfold runCheck in Hcheck. rewrite Hcheck.
    destruct Hkind as [-> | ->]; rewrite Hfalsy; cbn [negb]; fold error;
      unfold handleError, tryCatch, promiseCatch;
      destruct (isDefaultErrorHandlingEnabled d) eqn:En; try reflexivity;
      now rewrite En. }
  exists error. repeat split.
  - exact Hrun.
  - intro H0. unfold error. now rewrite H0.
  - intro Hn. unfold error.
    destruct (Nat.eqb_spec (rolesLength (authorizedRoles a)) 0); [contradiction|reflexivity].
  - intro next. rewrite Hrun. unfold handleError.
    destruct (isDefaultErrorHandlingEnabled d); reflexivity.
Qed.

(** ** The chain of a route *)

Lemma fst_settle : forall o, fst (settle o) = fst o.
Proof. intros [w [|e|e]]; reflexivity. Qed.

Lemma countActions_app :
  forall l1 l2, countActions (l1 ++ l2) = countActions l1 + countActions l2.
Proof. intros; unfold countActions; now rewrite filter_app, length_app. Qed.

Lemma countFlagSets_app :
  forall l1 l2, countFlagSets (l1 ++ l2) = countFlagSets l1 + countFlagSets l2.
Proof. intros; unfold countFlagSets; now rewrite filter_app, length_app. Qed.

Lemma Within_refl : forall n w, started (ctx w) = true -> Within n w w.
Proof.
  intros n w Hs. split; [exact Hs|]. exists []. rewrite app_nil_r.
  repeat split. cbn; lia.
Qed.

Lemma Within_setCtx_r :
  forall n w w' c, Within n w w' -> started c = true -> Within n w (setCtx w' c).
Proof. intros n w w' c [_ Hlog] Hc. split; [exact Hc | exact Hlog]. Qed.

Lemma Within_setCtx_l :
  forall n w w' c, Within n (setCtx w c) w' -> Within n w w'.
Proof. intros n w w' c H; exact H. Qed.

Lemma handleError_keeps_log :
  forall d error action w, log (fst (handleError d error action w)) = log w.
Proof.
  intros; unfold handleError; destruct (isDefaultErrorHandlingEnabled d); reflexivity.
Qed.

Lemma handleError_keeps_request :
  forall d error action w,
    ctx_request (ctx (fst (handleError d error action w))) = ctx_request (ctx w).
Proof.
  intros; unfold handleError; destruct (isDefaultErrorHandlingEnabled d); reflexivity.
Qed.

Lemma Within_handleError :
  forall n d error action w w',
    Within n w w' -> Within n w (fst (handleError d error action w')).
Proof.
  intros n d error action w w' [Hs Hlog]. split.
  - unfold started. rewrite handleError_keeps_request. exact Hs.
  - rewrite handleError_keeps_log. exact Hlog.
Qed.

Lemma Within_promiseCatch :
  forall n d action w o,
    Within n w (fst o) ->
    Within n w (fst (promiseCatch o (fun error w' => handleError d error action w'))).
Proof.
  intros n d action w [w' [|e|e]] H; cbn in *; auto using Within_handleError.
Qed.

Lemma Within_tryCatch :
  forall n d action w o,
    Within n w (fst o) ->
    Within n w (fst (tryCatch o (fun error w' => handleError d error action w'))).
Proof.
  intros n d action w [w' [|e|e]] H; cbn in *; auto using Within_handleError.
Qed.

Lemma Bounded_settle :
  forall n k, Bounded n k -> Bounded n (fun w => settle (k w)).
Proof. intros n k Hk w Hs. rewrite fst_settle. now apply Hk. Qed.

Lemma Bounded_finished : forall n, Bounded n (fun w' => (w', Fulfilled)).
Proof. intros n w Hs. now apply Within_refl. Qed.

Lemma runUser_tame : forall u, keepsFlag u -> Tame (runUser u).
Proof.
  intros u [Henter Hleave] n k Hk w Hs. unfold runUser.
  pose proof (Henter (ctx w) Hs) as Hc1.
  destruct (uc_enter u (ctx w)) as [c1 [|r]]; cbn in Hc1.
  - pose proof (Hk (setCtx w c1) Hc1) as Hw2.
    destruct (k (setCtx w c1)) as [w2 r]; cbn in Hw2.
    pose proof (Hleave (ctx w2) r (proj1 Hw2)) as Hc3.
    destruct (uc_leave u (ctx w2) r) as [c3 r']; cbn in *.
    now apply Within_setCtx_r.
  - cbn. apply Within_setCtx_r; [now apply Within_refl | exact Hc1].
Qed.

Lemma wrapMiddlewareClass_tame :
  forall d u, keepsFlag u -> Tame (wrapMiddlewareClass d u).
Proof.
  intros d u Hu n k Hk w Hs. unfold wrapMiddlewareClass.
  apply Within_promiseCatch. now apply (runUser_tame u Hu n k Hk).
Qed.

Lemma prepareMiddleware_tame :
  forall d use, useKeepsFlag use -> Tame (prepareMiddleware d use).
Proof.
  intros d use [Hfn Hclass]. unfold prepareMiddleware.
  destruct (mw_prototype use) as [[u|]|].
  - now apply wrapMiddlewareClass_tame.
  - now apply runUser_tame.
  - now apply runUser_tame.
Qed.

Lemma prepareMiddlewares_tame :
  forall d uses, Forall useKeepsFlag uses -> Forall Tame (prepareMiddlewares d uses).
Proof.
  intros d uses H. rewrite prepareMiddlewares_map.
  induction H; cbn; constructor; auto using prepareMiddleware_tame.
Qed.

Lemma authorizationMiddleware_tame :
  forall d actionMetadata,
    driverKeepsFlag d -> rolesKeepFlag (authorizedRoles actionMetadata) ->
    Tame (authorizationMiddleware d actionMetadata).
Proof.
  intros d a [Hchecker _] Hroles n k Hk w Hs. unfold authorizationMiddleware.
  destruct (authorizationChecker d) as [checker|]; [|now apply Within_refl].
  assert (Hc1 : started (fst (match authorizedRoles a with
                              | RolesArray roles => checker (ctx w) roles
                              | RolesClass _ check => check (ctx w)
                              end)) = true).
  { destruct (authorizedRoles a); cbn in Hroles; auto. }
  destruct (match authorizedRoles a with
            | RolesArray roles => checker (ctx w) roles
            | RolesClass _ check => check (ctx w)
            end) as [c1 checkResult]; cbn in Hc1.
  assert (Hw1 : Within n w (setCtx w c1)).
  { apply Within_setCtx_r; [now apply Within_refl | exact Hc1]. }
  assert (Hdecide : forall result,
             Within n w
               (fst (if negb (truthy result)
                     then handleError d
                            (if (rolesLength (authorizedRoles a) =? 0)%nat
                             then AuthorizationRequiredError else AccessDeniedError)
                            (Some a) (setCtx w c1)
                     else k (setCtx w c1)))).
  { intro result. destruct (negb (truthy result)).
    - now apply Within_handleError.
    - apply (Within_setCtx_l n w _ c1). now apply Hk. }
  destruct checkResult as [result|e|result|e].
  - apply Within_tryCatch, Hdecide.
  - now apply Within_handleError.
  - apply Within_promiseCatch, Hdecide.
  - now apply Within_handleError.
Qed.

Lemma routeGuard_bounded : forall n k, Bounded n (fun w => routeGuard w k).
Proof.
  intros n k w Hs. unfold routeGuard. rewrite Hs. cbn [negb fst].
  now apply Within_refl.
Qed.

Lemma routeHandler_bounded :
  forall actionMetadata executeCallback k,
    keepsFlag executeCallback -> Bounded 0 k ->
    Bounded 1 (fun w => routeHandler actionMetadata executeCallback w k).
Proof.
  intros a cb k Hcb Hk w Hs. unfold routeHandler.
  destruct (runUser_tame cb Hcb 0 k Hk (emit (EvAction (am_method a)) w) Hs)
    as [Hs' [extra [Hlog [Ha Hf]]]].
  split; [exact Hs'|].
  exists (EvAction (am_method a) :: extra). cbn [log emit] in Hlog.
  rewrite Hlog, <- app_assoc. repeat split.
  - change (EvAction (am_method a) :: extra) with ([EvAction (am_method a)] ++ extra).
    rewrite countActions_app. cbn. lia.
  - exact Hf.
Qed.

Section ComposeLift.

Variable P : Cont -> Prop.
Hypothesis P_settle : forall k, P k -> P (fun w => settle (k w)).

Lemma compose_lift :
  forall pre rest k,
    Forall (fun m : Middleware => forall k', P k' -> P (fun w => m w k')) pre ->
    P (compose rest k) ->
    P (compose (pre ++ rest) k).
Proof.
  intros pre rest k Hpre Hrest.
  induction Hpre as [|m pre Hm _ IH]; cbn.
  - exact Hrest.
  - apply P_settle. exact (Hm _ IH).
Qed.

End ComposeLift.

Lemma registerAction_stack :
  forall d actionMetadata executeCallback layer,
    registerAction d actionMetadata executeCallback = Ok layer ->
    exists uploads,
      uploadMiddlewares d actionMetadata = Ok uploads /\
      layer_stack layer =
        routeGuard ::
          prepareMiddlewares d
            (filter (fun use => negb (afterAction use))
                    (controllerUses actionMetadata ++ am_uses actionMetadata))
          ++ ((if isAuthorizedUsed actionMetadata
               then [authorizationMiddleware d actionMetadata] else []) ++ uploads)
          ++ [routeHandler actionMetadata executeCallback]
          ++ prepareMiddlewares d
               (filter afterAction
                       (controllerUses actionMetadata ++ am_uses actionMetadata)).
Proof.
  intros d a cb layer H. unfold registerAction in H.
  destruct (uploadMiddlewares d a) as [uploads|e]; cbn in H; [|discriminate].
  destruct (appendBaseRoute (routePrefix d) (fullRoute a)); cbn in H; [|discriminate].
  destruct (routerHasMethod (toLowerCase (am_type a))); [|discriminate].
  exists uploads. split; [reflexivity|].
  injection H as <-. reflexivity.
Qed.

Lemma uploadMiddlewares_tame :
  forall d actionMetadata uploads,
    driverKeepsFlag d ->
    uploadMiddlewares d actionMetadata = Ok uploads ->
    Forall Tame uploads.
Proof.
  intros d a uploads [_ Hmulter] H. unfold uploadMiddlewares in H.
  destruct (isFileUsed a || isFilesUsed a).
  - destruct (multer d) as [m|]; [|discriminate].
    injection H as <-. apply Forall_app; split; apply Forall_map, Forall_forall;
      intros param _; apply runUser_tame, Hmulter.
  - injection H as <-. constructor.
Qed.

Lemma Quiet_settle : forall k, Quiet k -> Quiet (fun w => settle (k w)).
Proof. intros k Hk w. rewrite fst_settle. apply Hk. Qed.

Lemma runUser_quiet : forall u k, Quiet k -> Quiet (fun w => runUser u w k).
Proof.
  intros u k Hk w. unfold runUser.
  destruct (uc_enter u (ctx w)) as [c1 [|r]]; [|reflexivity].
  pose proof (Hk (setCtx w c1)) as Hw2.
  destruct (k (setCtx w c1)) as [w2 r].
  destruct (uc_leave u (ctx w2) r) as [c3 r']. exact Hw2.
Qed.

Lemma prepareMiddleware_quiet :
  forall d use k, Quiet k -> Quiet (fun w => prepareMiddleware d use w k).
Proof.
  intros d use k Hk. unfold prepareMiddleware.
  destruct (mw_prototype use) as [[u|]|]; try now apply runUser_quiet.
  intro w. unfold wrapMiddlewareClass.
  pose proof (runUser_quiet u k Hk w) as H.
  destruct (runUser u w k) as [w' [|e|e]]; cbn in *;
    try rewrite handleError_keeps_log; exact H.
Qed.

Lemma routeGuard_quiet : forall k, Quiet k -> Quiet (fun w => routeGuard w k).
Proof.
  intros k Hk w. unfold routeGuard.
  destruct (negb (started (ctx w))); [|reflexivity].
  rewrite Hk. cbn [log emit setCtx].
  rewrite countActions_app. cbn. lia.
Qed.

(** C6: for an action that uses authorization, registered on a driver
    without authorization checker, the authorization middleware throws
    AuthorizationCheckerNotDefinedError on every call, leaving the state
    as it is and the continuation uncalled.  It stands in the chain after
    the route guard and the before-middlewares and ahead of the route
    handler, so from it on the chain rejects with that error, no request
    ever starts the action, and a fresh request to an action without
    before-middlewares is rejected right after the guard. *)
Theorem missing_checker_fails_fast :
  forall d actionMetadata executeCallback layer,
    isAuthorizedUsed actionMetadata = true ->
    authorizationChecker d = None ->
    registerAction d actionMetadata executeCallback = Ok layer ->
    (forall w next,
       authorizationMiddleware d actionMetadata w next =
       (w, Thrown AuthorizationCheckerNotDefinedError)) /\
    exists rest,
      layer_stack layer =
        routeGuard ::
          prepareMiddlewares d
            (filter (fun use => negb (afterAction use))
                    (controllerUses actionMetadata ++ am_uses actionMetadata))
          ++ authorizationMiddleware d actionMetadata :: rest /\
      In (routeHandler actionMetadata executeCallback) rest /\
      (forall w next,
         compose (authorizationMiddleware d actionMetadata :: rest) next w =
         (w, Rejected AuthorizationCheckerNotDefinedError)) /\
      (forall w next,
         countActions (log (fst (compose (layer_stack layer) next w))) =
         countActions (log w)) /\
      (controllerUses actionMetadata ++ am_uses actionMetadata = [] ->
       forall w next,
         started (ctx w) = false ->
         compose (layer_stack layer) next w =
         (emit EvFlagSet (setCtx w (markStarted (ctx w))),
          Rejected AuthorizationCheckerNotDefinedError)).
Proof.
  intros d a cb layer Hauth Hnone Hreg.
  assert (Hthrow : forall w next,
             authorizationMiddleware d a w next =
             (w, Thrown AuthorizationCheckerNotDefinedError)).
  { intros w next. unfold authorizationMiddleware. now rewrite Hnone. }
  split; [exact Hthrow|].
  destruct (registerAction_stack d a cb layer Hreg) as [uploads [_ Hstack]].
  rewrite Hauth in Hstack. cbn [app] in Hstack.
  set (rest := uploads ++ routeHandler a cb ::
               prepareMiddlewares d (filter afterAction (controllerUses a ++ am_uses a))) in *.
  exists rest.
  assert (Hfrom : forall w next,
             compose (authorizationMiddleware d a :: rest) next w =
             (w, Rejected AuthorizationCheckerNotDefinedError)).
  { intros w next. cbn. now rewrite Hthrow. }
  split; [|split; [|split; [|split]]].
  - exact Hstack.
  - unfold rest. apply in_or_app. right. now left.
  - exact Hfrom.
  - intros w next. rewrite Hstack. revert w.
    change (Quiet (compose
                     ([routeGuard] ++
                        prepareMiddlewares d
                          (filter (fun use => negb (afterAction use))
                                  (controllerUses a ++ am_uses a))
                        ++ authorizationMiddleware d a :: rest) next)).
    apply (compose_lift Quiet Quiet_settle).
    + constructor; [exact routeGuard_quiet | constructor].
    + apply (compose_lift Quiet Quiet_settle).
      * rewrite prepareMiddlewares_map. apply Forall_map, Forall_forall.
        intros use _ k Hk. now apply prepareMiddleware_quiet.
      * intro w. now rewrite Hfrom.
  - intros Hnouses w next Hfresh. rewrite Hstack, Hnouses. cbn [filter].
    unfold prepareMiddlewares at 1. cbn [fold_left app compose].
    unfold routeGuard. rewrite Hfresh. cbn [negb].
    rewrite Hthrow. reflexivity.
Qed.

Lemma userCont_bounded :
  forall downstream, keepsFlag downstream -> Bounded 0 (userCont downstream).
Proof.
  intros u Hu. exact (runUser_tame u Hu 0 _ (Bounded_finished 0)).
Qed.

Lemma userCont_keeps_log :
  forall downstream w, log (fst (userCont downstream w)) = log w.
Proof.
  intros u w. unfold userCont, runUser.
  destruct (uc_enter u (ctx w)) as [c1 [|r]]; [|reflexivity].
  destruct (uc_leave u (ctx (setCtx w c1)) Fulfilled) as [c3 r']. reflexivity.
Qed.

Lemma Registered_stack :
  forall d layer,
    driverKeepsFlag d -> Registered d layer ->
    exists pre post actionMetadata executeCallback,
      layer_stack layer =
        routeGuard :: pre ++ routeHandler actionMetadata executeCallback :: post /\
      Forall Tame pre /\ Forall Tame post /\ keepsFlag executeCallback.
Proof.
  intros d layer Hd [a [cb [Hreg [Huses [Hroles Hcb]]]]]. cbn [fst snd] in *.
  destruct (registerAction_stack d a cb layer Hreg) as [uploads [Hup Hstack]].
  exists (prepareMiddlewares d
            (filter (fun use => negb (afterAction use)) (controllerUses a ++ am_uses a))
          ++ (if isAuthorizedUsed a then [authorizationMiddleware d a] else []) ++ uploads),
         (prepareMiddlewares d (filter afterAction (controllerUses a ++ am_uses a))),
         a, cb.
  assert (Hfilter : forall f, Forall useKeepsFlag (filter f (controllerUses a ++ am_uses a))).
  { intro f. apply Forall_forall. intros use Hin. apply filter_In in Hin.
    exact (proj1 (Forall_forall _ _) Huses use (proj1 Hin)). }
  split; [|split; [|split]].
  - rewrite Hstack. cbn [app]. now rewrite <- !app_assoc.
  - apply Forall_app; split; [now apply prepareMiddlewares_tame|].
    apply Forall_app; split; [|now apply (uploadMiddlewares_tame d a)].
    destruct (isAuthorizedUsed a); constructor;
      [now apply authorizationMiddleware_tame | constructor].
  - now apply prepareMiddlewares_tame.
  - exact Hcb.
Qed.

Lemma chains_bounded :
  forall d layers downstream,
    driverKeepsFlag d -> Forall (Registered d) layers -> keepsFlag downstream ->
    Bounded 0 (compose (flat_map layer_stack layers) (userCont downstream)).
Proof.
  intros d layers u Hd Hlayers Hu.
  destruct Hlayers as [|layer rest Hlayer _]; cbn [flat_map].
  - cbn [compose]. now apply Bounded_settle, userCont_bounded.
  - destruct (Registered_stack d layer Hd Hlayer) as [pre [post [a [cb [Hstack _]]]]].
    rewrite Hstack. cbn [app compose].
    apply Bounded_settle, routeGuard_bounded.
Qed.

Lemma existsb_filter :
  forall (A : Type) (f : A -> bool) (l : list A),
    existsb f l = match filter f l with [] => false | _ :: _ => true end.
Proof.
  intros A f l; induction l as [|x l IH]; cbn; [reflexivity|].
  destruct (f x); cbn; [reflexivity | exact IH].
Qed.

(** C1: a fresh request handed to the router starts at most one action,
    however many registered routes match it.  The stack of every route
    begins with the route guard, so the flag is tested before any other
    middleware of that route; when some route matches, the flag is written
    as the first event and never again, and when none matches nothing is
    written.  User middlewares, the checker, the upload middleware and
    the action callback are taken not to clear the flag. *)
Theorem single_dispatch_per_request :
  forall d matches layers downstream w,
    driverKeepsFlag d ->
    Forall (Registered d) layers ->
    keepsFlag downstream ->
    started (ctx w) = false ->
    Forall (fun layer => exists rest, layer_stack layer = routeGuard :: rest) layers /\
    exists extra,
      log (fst (routerRoutes matches layers w (userCont downstream))) = log w ++ extra /\
      countActions extra <= 1 /\
      if existsb (fun layer => matches layer (ctx w)) layers
      then exists extra', extra = EvFlagSet :: extra' /\ countFlagSets extra' = 0
      else extra = [].
Proof.
  intros d matches layers u w Hd Hlayers Hu Hfresh. split.
  - apply Forall_forall. intros layer Hin.
    destruct (Registered_stack d layer Hd (proj1 (Forall_forall _ _) Hlayers layer Hin))
      as [pre [post [a [cb [Hstack _]]]]].
    rewrite Hstack. eauto.
  - unfold routerRoutes. rewrite existsb_filter.
    assert (Hmatched : Forall (Registered d)
                         (filter (fun layer => matches layer (ctx w)) layers)).
    { apply Forall_forall. intros layer Hin. apply filter_In in Hin.
      exact (proj1 (Forall_forall _ _) Hlayers layer (proj1 Hin)). }
    destruct (filter (fun layer => matches layer (ctx w)) layers) as [|first others].
    + exists []. cbn [flat_map compose]. rewrite fst_settle, userCont_keeps_log, app_nil_r.
      repeat split. cbn; lia.
    + inversion Hmatched as [|? ? Hfirst Hothers]; subst.
      destruct (Registered_stack d first Hd Hfirst)
        as [pre [post [a [cb [Hstack [Hpre [Hpost Hcb]]]]]]].
      cbn [flat_map]. rewrite Hstack. cbn [app compose].
      rewrite fst_settle. unfold routeGuard. rewrite Hfresh. cbn [negb].
      rewrite <- app_assoc. cbn [app].
      assert (Hrest : Bounded 1
                        (compose (pre ++ routeHandler a cb ::
                                  post ++ flat_map layer_stack others) (userCont u))).
      { apply (compose_lift (Bounded 1) (Bounded_settle 1)).
        - apply Forall_forall. intros m Hm k Hk.
          exact (proj1 (Forall_forall _ _) Hpre m Hm 1 k Hk).
        - cbn [compose]. apply Bounded_settle, routeHandler_bounded; [exact Hcb|].
          apply (compose_lift (Bounded 0) (Bounded_settle 0)).
          + apply Forall_forall. intros m Hm k Hk.
            exact (proj1 (Forall_forall _ _) Hpost m Hm 0 k Hk).
          + now apply (chains_bounded d). }
      destruct (Hrest (emit EvFlagSet (setCtx w (markStarted (ctx w)))) eq_refl)
        as [_ [extra [Hlog [Ha Hf]]]].
      exists (EvFlagSet :: extra). cbn [log emit setCtx] in Hlog.
      rewrite Hlog, <- app_assoc. repeat split.
      * change (EvFlagSet :: extra) with ([EvFlagSet] ++ extra).
        rewrite countActions_app. cbn. lia.
      * exists extra. split; [reflexivity | exact Hf].
Qed.

(** ** More on handleSuccess *)

Lemma deliver_keeps_request_and_log :
  forall action result w w1,
    deliver action result w = Ok w1 ->
    log w1 = log w /\ ctx_request (ctx w1) = ctx_request (ctx w).
Proof.
  intros action result w w1. unfold deliver.
  destruct (truthy (redirect action)).
  - destruct result; cbn;
      try destruct (templateUrl (redirect action) _); cbn;
      intro H; try discriminate H; injection H as <-; split; reflexivity.
  - destruct (truthy (renderedTemplate action)).
    + intro H; injection H as <-; split; reflexivity.
    + destruct result; cbn;
        repeat match goal with
        | |- context [if ?c then _ else _] => destruct c
        end;
        intro H; try discriminate H; injection H as <-; split; reflexivity.
Qed.

Lemma deliver_throw_cases :
  forall action result w e,
    deliver action result w = Throw e ->
    (truthy (redirect action) = false /\
     truthy (renderedTemplate action) = false /\
     (result = JUndefined \/ result = JNull)) \/
    (truthy (redirect action) = true /\
     instanceofObject result = true /\
     templateUrl (redirect action) result = Throw e).
Proof.
  intros action result w e. unfold deliver.
  destruct (truthy (redirect action)).
  - destruct result; cbn; try discriminate;
      (destruct (templateUrl (redirect action) _) eqn:E; cbn; [discriminate|]);
      intro H; injection H as <-; right; auto.
  - destruct (truthy (renderedTemplate action)); [discriminate|].
    destruct result; cbn;
      repeat match goal with
      | |- context [if ?c then _ else _] => destruct c
      end;
      intro H; try discriminate H; left; auto.
Qed.

(** X1: handleSuccess never ends the chain by itself: either it calls the
    continuation, on a state with the same request and log, or it throws
    and leaves the state as it was.  It throws in two situations only: the
    action has neither redirect nor rendered template and the result is
    undefined or null; or the action has a redirect, the result is an
    object, and template-url throws, whose error it is. *)
Theorem handleSuccess_continues_or_throws :
  forall d result action w next,
    (exists w',
       handleSuccess d result action w next = next w' /\
       log w' = log w /\ ctx_request (ctx w') = ctx_request (ctx w)) \/
    (exists e returned,
       result = Value returned /\
       handleSuccess d result action w next = (w, Thrown e) /\
       ((truthy (redirect action) = false /\
         truthy (renderedTemplate action) = false /\
         (transformResult d returned action = JUndefined \/
          transformResult d returned action = JNull)) \/
        (truthy (redirect action) = true /\
         instanceofObject (transformResult d returned action) = true /\
         templateUrl (redirect action) (transformResult d returned action) = Throw e))).
Proof.
  intros d result action w next.
  destruct result as [| |returned]; try (left; exists w; repeat split; reflexivity).
  unfold handleSuccess.
  destruct (deliver action (transformResult d returned action) w) as [w1|e] eqn:E.
  - left. eexists; split; [reflexivity|].
    destruct (deliver_keeps_request_and_log _ _ _ _ E) as [Hlog Hreq].
    split; [exact Hlog | exact Hreq].
  - right. exists e, returned. split; [reflexivity|]. split; [reflexivity|].
    exact (deliver_throw_cases _ _ _ _ E).
Qed.


(** X3: for an action with neither redirect nor rendered template, a
    result that is neither undefined nor null is handed on as the body: the
    continuation is called on a state whose response has the result as
    body (a copy in a Buffer when it is a Uint8Array), the success code as
    status when the action has one and the status it had otherwise, and the
    action's headers after those it had; the rest of the state is as it
    was. *)
Theorem regular_result_is_body :
  forall d action returned w next,
    truthy (redirect action) = false ->
    truthy (renderedTemplate action) = false ->
    isUndefined (transformResult d returned action) = false ->
    isNull (transformResult d returned action) = false ->
    exists w',
      handleSuccess d (Value returned) action w next = next w' /\
      ctx_response (ctx w') =
        {| res_body :=
             if instanceofUint8Array (transformResult d returned action)
             then bufferFrom (transformResult d returned action)
             else transformResult d returned action;
           res_status :=
             if truthy (successHttpCode action)
             then successHttpCode action
             else res_status (ctx_response (ctx w));
           res_headers := res_headers (ctx_response (ctx w)) ++ am_headers action;
           res_redirect := res_redirect (ctx_response (ctx w)) |} /\
      sameExceptResponse w w'.
Proof.
  intros d action returned w next Hredirect Hrender Hundef Hnull.
  unfold handleSuccess, deliver. rewrite Hredirect, Hrender.
  destruct (transformResult d returned action) eqn:E; try discriminate;
    cbn; (eexists; split; [reflexivity|]); (split; [|repeat split]);
    cbn; rewrite applyHeaders_appends; unfold resolveStatus; cbn;
    destruct (truthy (successHttpCode action)); reflexivity.
Qed.




(** ** More on the authorization middleware *)

(** X7: when the check grants access the continuation is called on the
    state the check left.  If the continuation then rejects, the outcome
    depends on how the check answered: after a plain value the rejection
    goes on to the caller untouched; after a promise it is caught and given
    to handleError for the action.  If the continuation fulfils, so does
    the middleware, with the same state. *)
Theorem granted_check_calls_next :
  forall d actionMetadata checker w next c1 checkResult result w2,
    authorizationChecker d = Some checker ->
    runCheck checker actionMetadata (ctx w) = (c1, checkResult) ->
    checkResult = CheckValue result \/ checkResult = CheckResolves result ->
    truthy result = true ->
    (next (setCtx w c1) = (w2, Fulfilled) ->
     authorizationMiddleware d actionMetadata w next = (w2, Fulfilled)) /\
    (forall e,
       next (setCtx w c1) = (w2, Rejected e) ->
       authorizationMiddleware d actionMetadata w next =
         match checkResult with
         | CheckResolves _ => handleError d e (Some actionMetadata) w2
         | _ => (w2, Rejected e)
         end).
Proof.
  intros d a checker w next c1 checkResult result w2 Hchecker Hcheck Hkind Hgrant.
  unfold runCheck in Hcheck.
  split; [intros Hnext | intros e Hnext];
    unfold authorizationMiddleware; rewrite Hchecker, Hcheck;
    destruct Hkind as [-> | ->]; rewrite Hgrant; cbn [negb];
    rewrite Hnext; reflexivity.
Qed.

(** X8: when the check itself fails, by throwing or by a promise that
    rejects, the continuation is not called: whatever it is, the outcome is
    that of handleError for the action with the error of the check. *)
Theorem failed_check_reaches_handleError :
  forall d actionMetadata checker w c1 checkResult e,
    authorizationChecker d = Some checker ->
    runCheck checker actionMetadata (ctx w) = (c1, checkResult) ->
    checkResult = CheckThrows e \/ checkResult = CheckRejects e ->
    forall next,
      authorizationMiddleware d actionMetadata w next =
      handleError d e (Some actionMetadata) (setCtx w c1).
Proof.
  intros d a checker w c1 checkResult e Hchecker Hcheck Hkind next.
  unfold runCheck in Hcheck.
  unfold authorizationMiddleware. rewrite Hchecker, Hcheck.
  destruct Hkind as [-> | ->]; reflexivity.
Qed.

(** ** More on prepareMiddlewares *)

(** X9: the function prepared for a middleware class never rejects while
    default error handling is enabled: it fulfils whether the class's use
    method fulfils, throws or rejects.  With default error handling
    disabled it rejects with the very error the method threw or rejected
    with, on the state the method left. *)
Theorem class_wrapper_outcome :
  forall d use instanceUse w next,
    mw_prototype use = Some (Some instanceUse) ->
    (isDefaultErrorHandlingEnabled d = true ->
     snd (prepareMiddleware d use w next) = Fulfilled) /\
    (isDefaultErrorHandlingEnabled d = false ->
     forall w' e,
       (runUser instanceUse w next = (w', Thrown e) \/
        runUser instanceUse w next = (w', Rejected e)) ->
       prepareMiddleware d use w next = (w', Rejected e)).
Proof.
  intros d use u w next Huse. unfold prepareMiddleware. rewrite Huse.
  unfold wrapMiddlewareClass, promiseCatch, handleError. split.
  - intros Hon. rewrite Hon.
    destruct (runUser u w next) as [w' [|e|e]]; reflexivity.
  - intros Hoff w' e [Hrun | Hrun]; rewrite Hrun, Hoff; reflexivity.
Qed.

(** ** More on registerAction *)

Lemma filter_split_length :
  forall (A : Type) (f : A -> bool) (l : list A),
    length (filter (fun x => negb (f x)) l) + length (filter f l) = length l.
Proof.
  intros A f l; induction l as [|x l IH]; cbn; [reflexivity|].
  destruct (f x); cbn; lia.
Qed.

(** X10: when the action uses a file or files parameter and @koa/multer
    is not installed, registerAction throws the error that asks to install
    it, before anything else.  For an action that uses neither, the package
    is not needed: an error of appendBaseRoute is passed on, a type the
    router has no method for is a TypeError, and otherwise the action is
    registered under its type in lower case and the normalized route. *)
Theorem registerAction_outcomes :
  forall d actionMetadata executeCallback,
    ((isFileUsed actionMetadata || isFilesUsed actionMetadata) = true ->
     multer d = None ->
     registerAction d actionMetadata executeCallback = Throw multerMissing) /\
    ((isFileUsed actionMetadata || isFilesUsed actionMetadata) = false ->
     match appendBaseRoute (routePrefix d) (fullRoute actionMetadata) with
     | Throw e => registerAction d actionMetadata executeCallback = Throw e
     | Ok fullPath =>
         if routerHasMethod (toLowerCase (am_type actionMetadata))
         then exists layer,
                registerAction d actionMetadata executeCallback = Ok layer /\
                layer_method layer = toLowerCase (am_type actionMetadata) /\
                layer_route layer = normalizeRoute fullPath
         else registerAction d actionMetadata executeCallback = Throw TypeError
     end).
Proof.
  intros d a cb. unfold registerAction, uploadMiddlewares. split.
  - intros Hfiles Hmulter. rewrite Hfiles, Hmulter. reflexivity.
  - intros Hfiles. rewrite Hfiles. cbn.
    destruct (appendBaseRoute (routePrefix d) (fullRoute a)); cbn; [|reflexivity].
    destruct (routerHasMethod (toLowerCase (am_type a))); [|reflexivity].
    eexists. repeat split.
Qed.

(** X11: the stack of a registered action is, in this order: the route
    guard; one function for every use of the controller and of the action
    that runs before the action; the authorization middleware when
    authorization is used; when the action is flagged as using files, one
    upload middleware for every 'file' parameter and then one for every
    'files' parameter, and none otherwise; the route handler; one function
    for every use that runs after the action.  Its length is two more than
    the number of uses and default middlewares. *)
Theorem registerAction_stack_shape :
  forall d actionMetadata executeCallback layer,
    registerAction d actionMetadata executeCallback = Ok layer ->
    exists uploads,
      layer_stack layer =
        routeGuard ::
          map (prepareMiddleware d)
              (filter (fun use => negb (afterAction use))
                      (controllerUses actionMetadata ++ am_uses actionMetadata))
          ++ (if isAuthorizedUsed actionMetadata
              then [authorizationMiddleware d actionMetadata] else [])
          ++ uploads
          ++ routeHandler actionMetadata executeCallback ::
             map (prepareMiddleware d)
                 (filter afterAction
                         (controllerUses actionMetadata ++ am_uses actionMetadata)) /\
      (if isFileUsed actionMetadata || isFilesUsed actionMetadata
       then exists m,
              multer d = Some m /\
              uploads =
                map (fun param =>
                       runUser (multer_single m (pm_extraOptions param) (pm_name param)))
                    (filter (isParamOfType "file") (am_params actionMetadata))
                ++
                map (fun param =>
                       runUser (multer_array m (pm_extraOptions param) (pm_name param)))
                    (filter (isParamOfType "files") (am_params actionMetadata))
       else uploads = []) /\
      length (layer_stack layer) =
        2 + length (controllerUses actionMetadata ++ am_uses actionMetadata)
          + (if isAuthorizedUsed actionMetadata then 1 else 0)
          + length uploads.
Proof.
  intros d a cb layer Hreg.
  destruct (registerAction_stack d a cb layer Hreg) as [uploads [Hup Hstack]].
  exists uploads.
  rewrite !prepareMiddlewares_map in Hstack.
  set (uses := controllerUses a ++ am_uses a) in *.
  split; [|split].
  - rewrite Hstack. now rewrite <- !app_assoc.
  - unfold uploadMiddlewares in Hup.
    destruct (isFileUsed a || isFilesUsed a).
    + destruct (multer d) as [m|]; [|discriminate].
      exists m. split; [reflexivity|]. now injection Hup as <-.
    + now injection Hup as <-.
  - rewrite Hstack. cbn [length app]. rewrite !length_app. cbn [length].
    rewrite !length_map.
    pose proof (filter_split_length Use afterAction uses).
    destruct (isAuthorizedUsed a); cbn [length]; lia.
Qed.

Lemma length_append :
  forall s t : string,
    String.length (s ++ t)%string = String.length s + String.length t.
Proof.
  intros s t; induction s as [|c s IH]; cbn; [reflexivity | now rewrite IH].
Qed.

Lemma get_after_prefix :
  forall (s : string) (c : ascii),
    String.get (String.length s) (s ++ String c "")%string = Some c.
Proof.
  intros s c; induction s as [|c' s IH]; cbn; [reflexivity | exact IH].
Qed.

Lemma substring_prefix :
  forall s t : string, substring 0 (String.length s) (s ++ t)%string = s.
Proof.
  intros s t; induction s as [|c s IH]; cbn.
  - now destruct t.
  - now rewrite IH.
Qed.

(** X12: the route is registered without its last character exactly when
    it is a string longer than one character that ends in a slash: one
    trailing slash is dropped from a non-root path, and the root path, a
    path that does not end in a slash, and a regular expression stay as
    they are. *)
Theorem normalizeRoute_strips_one_slash :
  (forall s, s <> "" -> normalizeRoute (RouteString (s ++ "/")%string) = RouteString s) /\
  normalizeRoute (RouteString "/") = RouteString "/" /\
  (forall s, endsWithSlash s = false ->
             normalizeRoute (RouteString s) = RouteString s) /\
  (forall source, normalizeRoute (RouteRegExp source) = RouteRegExp source).
Proof.
  split; [|split; [|split]].
  - intros s Hs. unfold normalizeRoute, endsWithSlash.
    rewrite length_append. cbn [String.length].
    replace (String.length s + 1 - 1) with (String.length s) by lia.
    rewrite get_after_prefix, substring_prefix.
    assert (Hlen : (1 <? String.length s + 1)%nat = true).
    { apply Nat.ltb_lt. destruct s; [contradiction | cbn; lia]. }
    rewrite Hlen. reflexivity.
  - reflexivity.
  - intros s Hs. unfold normalizeRoute. rewrite Hs.
    now rewrite andb_false_r.
  - reflexivity.
Qed.

(** ** More on the parameter extractor *)

(** X13: on a Koa context, where context.headers is request.headers, a
    named kind gives what reading its key from the matching whole kind
    gives ('body-param' from 'body', 'param' from 'params', 'session-param'
    from 'session', a named 'state' from the whole state, 'query' from
    'queries', 'header' from 'headers' under the name in lower case),
    including the TypeError when the whole is undefined or null.  For
    'cookie' and 'cookies' this holds when the request has a cookie header
    that is not empty; without one 'cookie' is undefined and 'cookies' is
    an empty object. *)
Theorem named_kind_reads_from_whole_kind :
  forall inheritedMember cookie_parse k whole context name,
    wholeOf k = Some whole ->
    ctx_headers context = req_headers (ctx_request context) ->
    (k = KHeader -> name <> None) ->
    (k = KState -> nameGiven name = true) ->
    (k <> KCookie \/ truthy (headerValue "cookie" (ctx_headers context)) = true ->
     getParamFromRequest inheritedMember cookie_parse (optionsOf context) (paramOf k name) =
     (obj <- getParamFromRequest inheritedMember cookie_parse (optionsOf context)
               (paramOf whole None) ;;
      getProp inheritedMember obj (keyOf k name))) /\
    (k = KCookie ->
     truthy (headerValue "cookie" (ctx_headers context)) = false ->
     getParamFromRequest inheritedMember cookie_parse (optionsOf context) (paramOf k name)
     = Ok JUndefined /\
     getParamFromRequest inheritedMember cookie_parse (optionsOf context)
       (paramOf whole None)
     = Ok (JObj [])).
Proof.
  intros inheritedMember cookie_parse k whole context name Hwhole Hheaders Hheader Hstate.
  destruct k; cbn in Hwhole; try discriminate; injection Hwhole as <-;
    (split; [intros Hcookie | intros Hk; try discriminate Hk]); cbn.
  - destruct (req_body (ctx_request context)); reflexivity.
  - destruct (ctx_params context); reflexivity.
  - destruct (ctx_session context); reflexivity.
  - rewrite (Hstate eq_refl). cbn. destruct (ctx_state context); reflexivity.
  - destruct (ctx_query context); reflexivity.
  - destruct name as [n|]; [|now exfalso; apply (Hheader eq_refl)].
    rewrite Hheaders. reflexivity.
  - destruct Hcookie as [Hne | Hraw]; [now exfalso; apply Hne|].
    rewrite <- Hheaders, Hraw. cbn.
    destruct (headerValue "cookie" (ctx_headers context)); cbn in *;
      try discriminate; reflexivity.
  - intros Hraw. rewrite <- Hheaders, Hraw. split; reflexivity.
Qed.

(** ** Setting up *)

(** X14: the constructor succeeds exactly when require is defined and,
    for koa and for the router alike, an instance was passed in or the
    package is installed.  An instance passed in is kept and no package is
    loaded for it; a missing one is a new object of its package; app is the
    koa instance. *)
Theorem construct_succeeds_iff :
  forall env koa router,
    ((exists instances, construct env koa router = Ok instances) <->
     (requireDefined env = true /\
      (koa <> None \/ packageInstalled env "koa" = true) /\
      (router <> None \/ packageInstalled env "@koa/router" = true))) /\
    (forall instances,
       construct env koa router = Ok instances ->
       di_app instances = di_koa instances /\
       di_koa instances =
         match koa with Some k => k | None => Constructed "koa" end /\
       di_router instances =
         match router with Some r => r | None => Constructed "@koa/router" end).
Proof.
  intros env koa router. unfold construct, loadKoa, loadRouter. split.
  - split.
    + intros [instances H].
      destruct (requireDefined env); [|discriminate]. split; [reflexivity|].
      destruct koa as [k|].
      * split; [left; discriminate|].
        destruct router as [r|]; [left; discriminate|]. right.
        cbn in H. destruct (packageInstalled env "@koa/router"); [reflexivity|discriminate].
      * destruct (packageInstalled env "koa"); [|discriminate].
        split; [now right|].
        destruct router as [r|]; [left; discriminate|]. right.
        cbn in H. destruct (packageInstalled env "@koa/router"); [reflexivity|discriminate].
    + intros [Hreq [Hkoa Hrouter]]. rewrite Hreq.
      destruct koa as [k|]; destruct router as [r|]; cbn;
        try (destruct Hkoa as [Hkoa|Hkoa]; [contradiction|rewrite Hkoa]);
        try (destruct Hrouter as [Hrouter|Hrouter]; [contradiction|rewrite Hrouter]);
        cbn; eauto.
  - intros instances H.
    destruct (requireDefined env); [|discriminate].
    destruct koa as [k|]; destruct router as [r|]; cbn in H;
      repeat match type of H with
      | context [if ?c then _ else _] => destruct c; cbn in H
      end; try discriminate; injection H as <-; repeat split.
Qed.

Lemma registerMiddleware_all :
  forall instanceUses koa,
    fold_left (fun app m => registerMiddleware m app) instanceUses koa =
    koa ++ flat_map (fun m => match m with
                              | Some u => [UseGlobal u]
                              | None => []
                              end) instanceUses.
Proof.
  induction instanceUses as [|m rest IH]; intro koa; cbn.
  - now rewrite app_nil_r.
  - rewrite IH. destruct m as [u|]; cbn; [now rewrite <- app_assoc | reflexivity].
Qed.


(** ** The first matching route *)

Lemma no_events :
  forall l, countActions l <= 0 -> countFlagSets l = 0 -> l = [].
Proof.
  intros [|[|m] l]; cbn; intros Ha Hf; [reflexivity | discriminate | lia].
Qed.

Lemma bare_stack :
  forall d actionMetadata executeCallback layer,
    registerAction d actionMetadata executeCallback = Ok layer ->
    isBare actionMetadata = true ->
    layer_stack layer = [routeGuard; routeHandler actionMetadata executeCallback].
Proof.
  intros d a cb layer Hreg Hbare.
  destruct (registerAction_stack d a cb layer Hreg) as [uploads [Hup Hstack]].
  unfold isBare in Hbare.
  apply andb_prop in Hbare as [Hbare Huses]. apply andb_prop in Hbare as [Hauth Hfiles].
  apply negb_true_iff in Hauth. apply negb_true_iff in Hfiles.
  unfold uploadMiddlewares in Hup. rewrite Hfiles in Hup. injection Hup as <-.
  rewrite Hauth in Hstack.
  destruct (controllerUses a ++ am_uses a); [|discriminate].
  exact Hstack.
Qed.

(** X16: when several registered routes match a fresh request and the
    first of them, in registration order, belongs to an action without
    authorization, uploads or user middlewares, the request sets the flag,
    starts that action, and starts no other: the log grows by exactly these
    two events.  User code is taken not to clear the flag. *)
Theorem first_matching_route_runs :
  forall d matches layers downstream w actionMetadata executeCallback first others,
    driverKeepsFlag d ->
    Forall (Registered d) layers ->
    keepsFlag downstream ->
    keepsFlag executeCallback ->
    started (ctx w) = false ->
    filter (fun layer => matches layer (ctx w)) layers = first :: others ->
    registerAction d actionMetadata executeCallback = Ok first ->
    isBare actionMetadata = true ->
    log (fst (routerRoutes matches layers w (userCont downstream))) =
    log w ++ [EvFlagSet; EvAction (am_method actionMetadata)].
Proof.
  intros d matches layers u w a cb first others Hd Hlayers Hu Hcb Hfresh Hmatch Hreg Hbare.
  assert (Hothers : Forall (Registered d) others).
  { apply Forall_forall. intros layer Hin.
    assert (Hin' : In layer (filter (fun layer => matches layer (ctx w)) layers)).
    { rewrite Hmatch. now right. }
    apply filter_In in Hin'.
    exact (proj1 (Forall_forall _ _) Hlayers layer (proj1 Hin')). }
  unfold routerRoutes. rewrite Hmatch. cbn [flat_map].
  rewrite (bare_stack d a cb first Hreg Hbare). cbn [app compose].
  rewrite fst_settle. unfold routeGuard. rewrite Hfresh. cbn [negb].
  rewrite fst_settle. unfold routeHandler.
  destruct (runUser_tame cb Hcb 0 _ (chains_bounded d others u Hd Hothers Hu)
              (emit (EvAction (am_method a))
                 (emit EvFlagSet (setCtx w (markStarted (ctx w))))) eq_refl)
    as [_ [extra [Hlog [Ha Hf]]]].
  rewrite Hlog. rewrite (no_events extra Ha Hf), app_nil_r.
  cbn [log emit setCtx]. now rewrite <- app_assoc.
Qed.

End Driver.

(** ** The properties at concrete inputs *)

(** GET /users/me registered as @All(/users/me) and as @Get(/users/:id). *)
Example two_matching_routes_run_one_action :
  log (fst (routerRoutes allMatch
              [layerOf (registerAction sampleIsHttpError sampleHttpCode sampleAppendBaseRoute sampleRouterHasMethod
                          (sampleDriver true None) (plainAction "all" "/users/me") passThrough);
               layerOf (registerAction sampleIsHttpError sampleHttpCode sampleAppendBaseRoute sampleRouterHasMethod
                          (sampleDriver true None) (plainAction "getOne" "/users/:id") passThrough)]
              freshWorld finished))
  = [EvFlagSet; EvAction "all"].
Proof. reflexivity. Qed.

Example trailing_slash_is_stripped :
  normalizeRoute (RouteString "/users/") = RouteString "/users" /\
  normalizeRoute (RouteString "/") = RouteString "/".
Proof. split; reflexivity. Qed.

Example header_name_is_lowered :
  getParamFromRequest sampleInherited noCookies
    (optionsOf {| ctx_request := emptyRequest; ctx_response := emptyResponse;
                  ctx_params := JObj []; ctx_session := JUndefined;
                  ctx_state := JObj []; ctx_query := JObj [];
                  ctx_headers := [("x-token", "abc")] |})
    {| pm_type := "header"; pm_name := Some "X-Token"; pm_extraOptions := JUndefined |}
  = Ok (JStr "abc").
Proof. reflexivity. Qed.

Lemma single_dispatch_witness :
  started (ctx freshWorld) = false /\
  exists extra,
    log (fst (routerRoutes allMatch
                [layerOf (registerAction sampleIsHttpError sampleHttpCode sampleAppendBaseRoute sampleRouterHasMethod
                            (sampleDriver true None) (plainAction "all" "/users/me") passThrough);
                 layerOf (registerAction sampleIsHttpError sampleHttpCode sampleAppendBaseRoute sampleRouterHasMethod
                            (sampleDriver true None) (plainAction "getOne" "/users/:id") passThrough)]
                freshWorld (userCont passThrough)))
    = log freshWorld ++ extra /\
    countActions extra <= 1 /\
    exists extra', extra = EvFlagSet :: extra' /\ countFlagSets extra' = 0.
Proof.
  split; [reflexivity|].
  assert (Hpass : keepsFlag passThrough).
  { split; intros; assumption. }
  assert (Hreg : forall name route,
             Registered sampleIsHttpError sampleHttpCode sampleAppendBaseRoute sampleRouterHasMethod
               (sampleDriver true None)
               (layerOf (registerAction sampleIsHttpError sampleHttpCode sampleAppendBaseRoute sampleRouterHasMethod
                           (sampleDriver true None) (plainAction name route) passThrough))).
  { intros name route. exists (plainAction name route), passThrough.
    split; [reflexivity|]. split; [constructor|]. split; [exact I | exact Hpass]. }
  exact (proj2 (single_dispatch_per_request
                  sampleIsHttpError sampleHttpCode sampleAppendBaseRoute sampleRouterHasMethod
                  (sampleDriver true None) allMatch _ passThrough freshWorld
                  (conj I I)
                  (Forall_cons _ (Hreg "all" "/users/me")
                     (Forall_cons _ (Hreg "getOne" "/users/:id") (Forall_nil _)))
                  Hpass eq_refl)).
Defined.


(** A descriptor of kind 'request', which the switch does not list. *)
Lemma unlisted_kind_returns_undefined :
  getParamFromRequest sampleInherited noCookies (optionsOf freshContext)
    {| pm_type := "request"; pm_name := None; pm_extraOptions := JUndefined |}
  = Ok JUndefined.
Proof. reflexivity. Qed.

Lemma unrecognized_kind_witness :
  getParamFromRequest sampleInherited noCookies (optionsOf freshContext)
    {| pm_type := "current-user"; pm_name := None; pm_extraOptions := JUndefined |}
  = Ok JUndefined.
Proof.
  apply (getParamFromRequest_unrecognized_kind sampleInherited noCookies (optionsOf freshContext)
           {| pm_type := "current-user"; pm_name := None; pm_extraOptions := JUndefined |}).
  cbn. intros H. repeat (destruct H as [H|H]; [discriminate H|]). exact H.
Defined.

Lemma routeGuard_witness :
  routeGuard startedWorld (userCont passThrough) = (startedWorld, Fulfilled).
Proof.
  apply (routeGuard_blocks_started_request startedWorld (userCont passThrough)).
  reflexivity.
Defined.

Lemma denied_check_witness :
  exists error,
    (forall next,
       authorizationMiddleware sampleIsHttpError sampleHttpCode
         (sampleDriver true (Some denyAll)) (guardedAction []) freshWorld next =
       handleError sampleIsHttpError sampleHttpCode
         (sampleDriver true (Some denyAll)) error (Some (guardedAction []))
         (setCtx freshWorld freshContext)) /\
    (rolesLength (authorizedRoles (guardedAction [])) = 0 ->
     error = AuthorizationRequiredError) /\
    (rolesLength (authorizedRoles (guardedAction [])) <> 0 ->
     error = AccessDeniedError) /\
    (forall next,
       log (fst (authorizationMiddleware sampleIsHttpError sampleHttpCode
                   (sampleDriver true (Some denyAll)) (guardedAction []) freshWorld next))
       = log freshWorld).
Proof.
  apply (denied_check_reaches_handleError sampleIsHttpError sampleHttpCode
           (sampleDriver true (Some denyAll)) (guardedAction []) denyAll
           freshWorld freshContext (CheckValue (JBool false)) (JBool false)).
  - reflexivity.
  - reflexivity.
  - left. reflexivity.
  - reflexivity.
Defined.

Example empty_roles_give_authorization_required :
  authorizationMiddleware sampleIsHttpError sampleHttpCode
    (sampleDriver false (Some denyAll)) (guardedAction []) freshWorld finished
  = (freshWorld, Rejected AuthorizationRequiredError).
Proof. reflexivity. Qed.

Example some_roles_give_access_denied :
  authorizationMiddleware sampleIsHttpError sampleHttpCode
    (sampleDriver false (Some denyAll)) (guardedAction [JStr "admin"]) freshWorld finished
  = (freshWorld, Rejected AccessDeniedError).
Proof. reflexivity. Qed.

Lemma handleSuccess_witness :
  handleSuccess sampleTemplateUrl (sampleDriver true None) (Value JUndefined)
    (plainAction "getOne" "/users/:id") freshWorld finished
  = (freshWorld, Thrown NotFoundError) /\
  exists w',
    handleSuccess sampleTemplateUrl (sampleDriver true None) (Value JNull)
      (plainAction "getOne" "/users/:id") freshWorld finished
    = finished w' /\
    ctx_response (ctx w') =
      {| res_body := JNull;
         res_status := JNum 204;
         res_headers := res_headers (ctx_response (ctx freshWorld))
                        ++ am_headers (plainAction "getOne" "/users/:id");
         res_redirect := res_redirect (ctx_response (ctx freshWorld)) |} /\
    sameExceptResponse freshWorld w'.
Proof.
  split.
  - apply (proj1 (handleSuccess_undefined_and_null sampleTemplateUrl (sampleDriver true None)
                    (plainAction "getOne" "/users/:id") JUndefined freshWorld finished
                    eq_refl eq_refl));
      reflexivity.
  - apply (proj2 (handleSuccess_undefined_and_null sampleTemplateUrl (sampleDriver true None)
                    (plainAction "getOne" "/users/:id") JNull freshWorld finished
                    eq_refl eq_refl));
      reflexivity.
Defined.

Lemma missing_checker_witness :
  compose
    (layer_stack
       (layerOf (registerAction sampleIsHttpError sampleHttpCode sampleAppendBaseRoute sampleRouterHasMethod
                   (sampleDriver true None) (guardedAction [JStr "admin"]) passThrough)))
    finished freshWorld
  = (startedWorld, Rejected AuthorizationCheckerNotDefinedError).
Proof.
  destruct (missing_checker_fails_fast sampleIsHttpError sampleHttpCode sampleAppendBaseRoute sampleRouterHasMethod
              (sampleDriver true None) (guardedAction [JStr "admin"]) passThrough
              (layerOf (registerAction sampleIsHttpError sampleHttpCode sampleAppendBaseRoute sampleRouterHasMethod
                          (sampleDriver true None) (guardedAction [JStr "admin"]) passThrough))
              eq_refl eq_refl eq_refl)
    as [_ [rest [_ [_ [_ [_ Hfresh]]]]]].
  exact (Hfresh eq_refl freshWorld finished eq_refl).
Defined.

Example handleError_http_error_status :
  res_status
    (ctx_response
       (ctx (fst (handleError sampleIsHttpError sampleHttpCode (sampleDriver true None)
                    (UserError (JObj [("httpCode", JNum 404)]))
                    (Some (plainAction "getOne" "/users/:id")) freshWorld))))
  = JNum 404.
Proof. reflexivity. Qed.

Example Session_defaults :
  SessionDecorator.params
    (SessionDecorator.Session None "UserController" "me" 0
       {| SessionDecorator.params := [] |})
  = [ {| SessionDecorator.pa_type := "session";
         SessionDecorator.pa_object := "UserController";
         SessionDecorator.pa_method := "me";
         SessionDecorator.pa_index := 0;
         SessionDecorator.pa_parse := false;
         SessionDecorator.pa_required := JBool true;
         SessionDecorator.pa_classTransform := JUndefined;
         SessionDecorator.pa_validate := JBool false |} ].
Proof. reflexivity. Qed.

(** ** More properties at concrete inputs *)


Lemma regular_result_witness :
  exists w',
    handleSuccess sampleTemplateUrl (sampleDriver true None)
      (Value (JBytes false [1; 2; 3]%Z)) codedAction freshWorld finished
    = finished w' /\
    ctx_response (ctx w') =
      {| res_body := JBytes true [1; 2; 3]%Z;
         res_status := JNum 201;
         res_headers := [];
         res_redirect := None |} /\
    sameExceptResponse freshWorld w'.
Proof.
  exact (regular_result_is_body sampleTemplateUrl (sampleDriver true None) codedAction
           (JBytes false [1; 2; 3]%Z) freshWorld finished
           eq_refl eq_refl eq_refl eq_refl).
Defined.




Lemma granted_check_witness :
  authorizationMiddleware sampleIsHttpError sampleHttpCode
    (sampleDriver true (Some grantAll)) (guardedAction [JStr "admin"]) freshWorld failing
  = (freshWorld, Rejected (errorOf "boom")) /\
  authorizationMiddleware sampleIsHttpError sampleHttpCode
    (sampleDriver true (Some grantAllLater)) (guardedAction [JStr "admin"]) freshWorld failing
  = handleError sampleIsHttpError sampleHttpCode
      (sampleDriver true (Some grantAllLater)) (errorOf "boom")
      (Some (guardedAction [JStr "admin"])) freshWorld /\
  authorizationMiddleware sampleIsHttpError sampleHttpCode
    (sampleDriver true (Some grantAll)) (guardedAction [JStr "admin"]) freshWorld finished
  = (freshWorld, Fulfilled).
Proof.
  split; [|split].
  - apply (proj2 (granted_check_calls_next sampleIsHttpError sampleHttpCode
                    (sampleDriver true (Some grantAll)) (guardedAction [JStr "admin"])
                    grantAll freshWorld failing freshContext
                    (CheckValue (JBool true)) (JBool true) freshWorld
                    eq_refl eq_refl (or_introl eq_refl) eq_refl)
                 (errorOf "boom") eq_refl).
  - apply (proj2 (granted_check_calls_next sampleIsHttpError sampleHttpCode
                    (sampleDriver true (Some grantAllLater)) (guardedAction [JStr "admin"])
                    grantAllLater freshWorld failing freshContext
                    (CheckResolves (JBool true)) (JBool true) freshWorld
                    eq_refl eq_refl (or_intror eq_refl) eq_refl)
                 (errorOf "boom") eq_refl).
  - apply (proj1 (granted_check_calls_next sampleIsHttpError sampleHttpCode
                    (sampleDriver true (Some grantAll)) (guardedAction [JStr "admin"])
                    grantAll freshWorld finished freshContext
                    (CheckValue (JBool true)) (JBool true) freshWorld
                    eq_refl eq_refl (or_introl eq_refl) eq_refl)
                 eq_refl).
Defined.

Lemma failed_check_witness :
  authorizationMiddleware sampleIsHttpError sampleHttpCode
    (sampleDriver false (Some failingCheck)) (guardedAction []) freshWorld finished
  = handleError sampleIsHttpError sampleHttpCode
      (sampleDriver false (Some failingCheck)) (errorOf "no token")
      (Some (guardedAction [])) (setCtx freshWorld freshContext).
Proof.
  apply (failed_check_reaches_handleError sampleIsHttpError sampleHttpCode
           (sampleDriver false (Some failingCheck)) (guardedAction []) failingCheck
           freshWorld freshContext (CheckThrows (errorOf "no token")) (errorOf "no token")
           eq_refl eq_refl (or_introl eq_refl) finished).
Defined.

Lemma class_wrapper_witness :
  snd (prepareMiddleware sampleIsHttpError sampleHttpCode (sampleDriver true None)
         throwingClass freshWorld finished) = Fulfilled /\
  prepareMiddleware sampleIsHttpError sampleHttpCode (sampleDriver false None)
    throwingClass freshWorld finished
  = (freshWorld, Rejected (errorOf "boom")).
Proof.
  split.
  - apply (proj1 (class_wrapper_outcome sampleIsHttpError sampleHttpCode
                    (sampleDriver true None) throwingClass throwing freshWorld finished
                    eq_refl)).
    reflexivity.
  - apply (proj2 (class_wrapper_outcome sampleIsHttpError sampleHttpCode
                    (sampleDriver false None) throwingClass throwing freshWorld finished
                    eq_refl) eq_refl freshWorld (errorOf "boom")).
    left. reflexivity.
Defined.

Lemma stack_shape_witness :
  exists uploads,
    layer_stack
      (layerOf (registerAction sampleIsHttpError sampleHttpCode sampleAppendBaseRoute
                  sampleRouterHasMethod uploadDriver uploadAction passThrough))
    = routeGuard :: [] ++ [] ++ uploads
        ++ routeHandler uploadAction passThrough :: [] /\
    (exists m,
       multer uploadDriver = Some m /\
       uploads =
         [runUser (multer_single m JUndefined (Some "avatar"))] ++ []) /\
    length
      (layer_stack
         (layerOf (registerAction sampleIsHttpError sampleHttpCode sampleAppendBaseRoute
                     sampleRouterHasMethod uploadDriver uploadAction passThrough)))
    = 2 + 0 + 0 + length uploads.
Proof.
  exact (registerAction_stack_shape sampleIsHttpError sampleHttpCode sampleAppendBaseRoute
           sampleRouterHasMethod uploadDriver uploadAction passThrough
           (layerOf (registerAction sampleIsHttpError sampleHttpCode sampleAppendBaseRoute
                       sampleRouterHasMethod uploadDriver uploadAction passThrough))
           eq_refl).
Defined.

Example unknown_router_method_is_a_type_error :
  registerAction sampleIsHttpError sampleHttpCode sampleAppendBaseRoute
    sampleRouterHasMethod (sampleDriver true None)
    {| am_type := "BOGUS"; am_method := "x"; fullRoute := RouteString "/x";
       isAuthorizedUsed := false; authorizedRoles := RolesArray [];
       isFileUsed := false; isFilesUsed := false; am_params := [];
       controllerUses := []; am_uses := [];
       redirect := JUndefined; renderedTemplate := JUndefined;
       undefinedResultCode := JUndefined; nullResultCode := JUndefined;
       successHttpCode := JUndefined; am_headers := [];
       isJsonTyped := false |} passThrough
  = Throw TypeError.
Proof. reflexivity. Qed.

Lemma named_cookie_witness :
  getParamFromRequest sampleInherited sampleCookies (optionsOf cookieContext)
    (paramOf KCookie (Some "sid"))
  = (obj <- getParamFromRequest sampleInherited sampleCookies (optionsOf cookieContext)
              (paramOf KCookies None) ;;
     getProp sampleInherited obj (keyOf KCookie (Some "sid"))).
Proof.
  apply (proj1 (named_kind_reads_from_whole_kind sampleInherited sampleCookies
                  KCookie KCookies cookieContext (Some "sid")
                  eq_refl eq_refl
                  (fun H : KCookie = KHeader => False_ind _ (eq_ind KCookie
                     (fun k => match k with KCookie => True | _ => False end) I _ H))
                  (fun H : KCookie = KState => False_ind _ (eq_ind KCookie
                     (fun k => match k with KCookie => True | _ => False end) I _ H)))).
  right. reflexivity.
Defined.

Example named_cookie_value :
  getParamFromRequest sampleInherited sampleCookies (optionsOf cookieContext) (paramOf KCookie (Some "sid"))
  = Ok (JStr "abc").
Proof. reflexivity. Qed.

Lemma first_route_witness :
  log (fst (routerRoutes allMatch
              [layerOf (registerAction sampleIsHttpError sampleHttpCode sampleAppendBaseRoute sampleRouterHasMethod
                          (sampleDriver true None) (plainAction "all" "/users/me") passThrough);
               layerOf (registerAction sampleIsHttpError sampleHttpCode sampleAppendBaseRoute sampleRouterHasMethod
                          (sampleDriver true None) (plainAction "getOne" "/users/:id") passThrough)]
              freshWorld (userCont passThrough)))
  = log freshWorld ++ [EvFlagSet; EvAction (am_method (plainAction "all" "/users/me"))].
Proof.
  assert (Hpass : keepsFlag passThrough).
  { split; intros; assumption. }
  assert (Hreg : forall name route,
             Registered sampleIsHttpError sampleHttpCode sampleAppendBaseRoute sampleRouterHasMethod
               (sampleDriver true None)
               (layerOf (registerAction sampleIsHttpError sampleHttpCode sampleAppendBaseRoute sampleRouterHasMethod
                           (sampleDriver true None) (plainAction name route) passThrough))).
  { intros name route. exists (plainAction name route), passThrough.
    split; [reflexivity|]. split; [constructor|]. split; [exact I | exact Hpass]. }
  exact (first_matching_route_runs
           sampleIsHttpError sampleHttpCode sampleAppendBaseRoute sampleRouterHasMethod
           (sampleDriver true None) allMatch _ passThrough freshWorld
           (plainAction "all" "/users/me") passThrough _ _
           (conj I I)
           (Forall_cons _ (Hreg "all" "/users/me")
              (Forall_cons _ (Hreg "getOne" "/users/:id") (Forall_nil _)))
           Hpass Hpass eq_refl eq_refl eq_refl eq_refl).
Defined.

Example construct_without_router_package :
  construct (sampleEnv true false) None None
  = Throw (errorOf "@koa/router package was not found installed. Try to install it: npm install @koa/router --save") /\
  construct (sampleEnv false false) (Some (Given "app")) (Some (Given "router"))
  = Ok {| di_koa := Given "app"; di_router := Given "router"; di_app := Given "app" |}.
Proof. split; reflexivity. Qed.

Example two_trailing_slashes_keep_one :
  normalizeRoute (RouteString "/users//") = RouteString "/users/".
Proof. reflexivity. Qed.

(** With default error handling enabled, a plain middleware that throws
    behind a middleware class: the class's wrapper catches the error and
    handleError writes the response. *)
Lemma plain_error_behind_class_is_translated :
  isMiddlewareClass throwingPlain = false /\
  compose (prepareMiddlewares sampleIsHttpError sampleHttpCode (sampleDriver true None)
             [passingClass; throwingPlain]) finished freshWorld
  = (setResponse freshWorld
       {| res_body := JStr "error"; res_status := JNum 500;
          res_headers := []; res_redirect := None |},
     Fulfilled).
Proof. split; reflexivity. Qed.

(** A path parameter named like a member every object inherits, and the
    length of a body that is a string. *)
Example inherited_member_is_returned :
  getParamFromRequest sampleInherited noCookies (optionsOf freshContext)
    {| pm_type := "param"; pm_name := Some "toString"; pm_extraOptions := JUndefined |}
  = Ok (JFunction "toString") /\
  getParamFromRequest sampleInherited noCookies
    (optionsOf {| ctx_request :=
                    {| req_body := JStr "abc"; req_headers := [];
                       req_file := JUndefined; req_files := JUndefined;
                       routingControllersStarted := JUndefined |};
                  ctx_response := emptyResponse;
                  ctx_params := JObj []; ctx_session := JUndefined;
                  ctx_state := JObj []; ctx_query := JObj []; ctx_headers := [] |})
    {| pm_type := "body-param"; pm_name := Some "length"; pm_extraOptions := JUndefined |}
  = Ok (JNum 3).
Proof. split; reflexivity. Qed.
